(** * The video clipper's job polling client (frontend/src/App.jsx)

    A shallow embedding of the state of [VideoClipperPage] that the three
    polling loops ([startSmartPolling], [startRenderPolling], [startPolling]),
    the two cancel handlers, [handleRenderSelected] and the two
    [localStorage] effects read and write.

    Conventions.
    - A JavaScript value that may be [undefined] is an [option]; a string is
      truthy when it is present and not empty.
    - One timer callback runs to completion before the next one fires: the
      callbacks are [async], and the embedding takes each of them as one atomic
      step whose awaited responses are given as the step's input.
    - One interval is live at a time: starting a loop clears the one before.
    - Every effect that leaves the component (a fetch, an alert, a write to
      [localStorage]) is appended, with the time it happens at, to a trace
      kept in the state; times are milliseconds, as [Date.now()] gives them. *)

From Stdlib Require Import String Ascii List ZArith QArith Bool Lia.
From Stdlib Require Import DecimalString DecimalZ.
Import ListNotations.

Local Open Scope string_scope.
Local Open Scope Z_scope.

(** ** JavaScript values *)

Definition truthy (v : option string) : bool :=
  match v with
  | Some s => negb (String.eqb s "")
  | None => false
  end.

(** [a || b] on two possibly-undefined strings. *)
Definition js_or (a b : option string) : option string :=
  if truthy a then a else b.

(** [v === lit] *)
Definition is_str (v : option string) (lit : string) : bool :=
  match v with
  | Some s => String.eqb s lit
  | None => false
  end.

Definition dquote : string := String (ascii_of_nat 34) EmptyString.

(** ** Data *)

(** The body of [GET /clipper/job/:id] as the callbacks read it. *)
Record JobData := mkJobData {
  d_status : option string;
  d_progress : option Q;
  d_stage : option string;
  d_detail : option string;
  d_error : option string
}.

(** What [await fetch(...)] followed by [await res.json()] can give: the fetch
    rejects, or it resolves with a status code and a body that parses
    ([Some]) or does not ([None], [res.json()] rejects). *)
Inductive Response :=
| NetworkError
| Http (code : Z) (body : option JobData).

Record Clip := mkClip {
  c_index : Z;
  c_ready : option bool
}.

(** The body of the results endpoints. *)
Record ResultData := mkResultData {
  r_success : bool;
  r_clips : option (list Clip)
}.

Inductive ResultsResponse :=
| ResultsError
| ResultsOk (data : ResultData).

(** The [currentJob] object. *)
Record Job := mkJob {
  id : option string;
  status : option string;
  progress : option Q;
  stage : option string;
  detail : option string;
  error : option string;
  cached : option bool
}.

Definition noJob : Job := mkJob None None None None None None None.

Inductive Phase :=
| PInput | PDownloading | PWaiting | PAnalyzing | PSelect | PRendering | PDone.

(** The three interval callbacks. *)
Inductive Path := Smart | Render | Classic.

(** The entry [clipper_current_job] of [localStorage] as [JSON.parse] and the
    destructuring [{ id, startedAt }] see it: [EmptyText] for the empty string
    (falsy, never parsed), [Malformed] when either throws, [startedAt = None]
    when the field is missing or not a number. *)
Inductive Stored :=
| EmptyText
| Malformed
| SavedJob (saved_id : option string) (startedAt : option Z).

Inductive Event :=
| FetchStatus (job : string)
| FetchLogs (job : string)
| FetchSmartResults (job : string) (isFinal : bool)
| FetchRenderResults (job : string)
| FetchJobResult (job : string)
| PostCancel (job : string)
| PostRender (job : string) (use_local_worker : bool)
| StorageSet (job : string) (startedAt : Z)
| StorageRemove
| Alert (msg : string).

(** The state of the component and of its surroundings: the React state the
    loops write, the entry of [localStorage], the live interval ([poller],
    with the [jobId] its callback closes over), the local [notFoundCount] of
    [startSmartPolling], [pollErrorCountRef.current], the clock and the
    trace. *)
Record App := mkApp {
  currentJob : option Job;
  clipperPhase : Phase;
  smartResults : list Clip;
  jobResult : option ResultData;
  storedJob : option Stored;
  poller : option Path;
  pollJobId : string;
  notFoundCount : nat;
  pollErrorCount : nat;
  now : Z;
  trace : list (Z * Event)
}.

(** What one firing of an interval callback awaits: the status response, the
    draw [Math.random() < 0.2] and the response of the results endpoint, which
    is read only on the branches that fetch results.  The logs response only
    feeds [jobLogs], which no polling decision reads; the request is traced,
    the log list is not kept. *)
Record TickInput := mkTick {
  resp : Response;
  coin : bool;
  results : ResultsResponse
}.

(** ** State updates *)

Definition setCurrentJob (f : option Job -> option Job) (s : App) : App :=
  mkApp (f (currentJob s)) (clipperPhase s) (smartResults s) (jobResult s)
        (storedJob s) (poller s) (pollJobId s) (notFoundCount s)
        (pollErrorCount s) (now s) (trace s).

Definition setClipperPhase (ph : Phase) (s : App) : App :=
  mkApp (currentJob s) ph (smartResults s) (jobResult s)
        (storedJob s) (poller s) (pollJobId s) (notFoundCount s)
        (pollErrorCount s) (now s) (trace s).

Definition setSmartResults (cs : list Clip) (s : App) : App :=
  mkApp (currentJob s) (clipperPhase s) cs (jobResult s)
        (storedJob s) (poller s) (pollJobId s) (notFoundCount s)
        (pollErrorCount s) (now s) (trace s).

Definition setJobResult (r : option ResultData) (s : App) : App :=
  mkApp (currentJob s) (clipperPhase s) (smartResults s) r
        (storedJob s) (poller s) (pollJobId s) (notFoundCount s)
        (pollErrorCount s) (now s) (trace s).

Definition setStored (v : option Stored) (s : App) : App :=
  mkApp (currentJob s) (clipperPhase s) (smartResults s) (jobResult s)
        v (poller s) (pollJobId s) (notFoundCount s)
        (pollErrorCount s) (now s) (trace s).

Definition setPoller (p : option Path) (jobId : string) (s : App) : App :=
  mkApp (currentJob s) (clipperPhase s) (smartResults s) (jobResult s)
        (storedJob s) p jobId (notFoundCount s)
        (pollErrorCount s) (now s) (trace s).

Definition setNotFoundCount (n : nat) (s : App) : App :=
  mkApp (currentJob s) (clipperPhase s) (smartResults s) (jobResult s)
        (storedJob s) (poller s) (pollJobId s) n
        (pollErrorCount s) (now s) (trace s).

Definition setPollErrorCount (n : nat) (s : App) : App :=
  mkApp (currentJob s) (clipperPhase s) (smartResults s) (jobResult s)
        (storedJob s) (poller s) (pollJobId s) (notFoundCount s)
        n (now s) (trace s).

Definition advance (ms : Z) (s : App) : App :=
  mkApp (currentJob s) (clipperPhase s) (smartResults s) (jobResult s)
        (storedJob s) (poller s) (pollJobId s) (notFoundCount s)
        (pollErrorCount s) (now s + ms) (trace s).

Definition emit (e : Event) (s : App) : App :=
  mkApp (currentJob s) (clipperPhase s) (smartResults s) (jobResult s)
        (storedJob s) (poller s) (pollJobId s) (notFoundCount s)
        (pollErrorCount s) (now s) (trace s ++ [(now s, e)]).

(** [clearInterval(interval); setPollInterval(null)] *)
Definition clearInterval (s : App) : App :=
  setPoller None (pollJobId s) s.

(** [localStorage.removeItem('clipper_current_job')] *)
Definition removeItem (s : App) : App :=
  emit StorageRemove (setStored None s).

(** [{ ...prev }] *)
Definition spread (prev : option Job) : Job :=
  match prev with
  | Some j => j
  | None => noJob
  end.

(** [{ ...prev, status, progress, stage, detail }] from a status body. *)
Definition merge_data (prev : option Job) (data : JobData) : option Job :=
  let j := spread prev in
  Some (mkJob (id j) (d_status data) (d_progress data) (d_stage data)
              (d_detail data) (error j) (cached j)).

Definition with_status_error (st err : string) (prev : option Job) : option Job :=
  let j := spread prev in
  Some (mkJob (id j) (Some st) (progress j) (stage j) (detail j) (Some err)
              (cached j)).

Definition with_error (err : option string) (prev : option Job) : option Job :=
  let j := spread prev in
  Some (mkJob (id j) (status j) (progress j) (stage j) (detail j) err
              (cached j)).

(** ** [fetchSmartResults] *)

Definition ready_filter (c : Clip) : bool :=
  match c_ready c with
  | Some false => false
  | _ => true
  end.

(** The part of [fetchSmartResults] that runs once the response is in. *)
Definition smartResults_arrive (isFinal : bool) (r : ResultsResponse) (s : App) : App :=
  match r with
  | ResultsError => s
  | ResultsOk data =>
    match r_clips data with
    | Some (c :: cs) =>
      let s := setSmartResults (filter ready_filter (c :: cs)) s in
      if isFinal then removeItem (setClipperPhase PDone s) else s
    | _ => s
    end
  end.

(** ** [startSmartPolling]: the interval callback *)

Definition job_lost_smart : string :=
  "Job lost - server may have restarted. Please try again.".

Definition smart_callback (i : TickInput) (s : App) : App :=
  let jobId := pollJobId s in
  let s := emit (FetchStatus jobId) s in
  match resp i with
  | NetworkError => s
  | Http code body =>
    if code =? 404 then
      let s := setNotFoundCount (S (notFoundCount s)) s in
      if (3 <=? notFoundCount s)%nat then
        setClipperPhase PInput
          (setCurrentJob (with_status_error "failed" job_lost_smart)
             (clearInterval s))
      else s
    else
      let s := setNotFoundCount 0 s in
      match body with
      | None => s
      | Some data =>
        let s := emit (FetchLogs jobId) s in
        let s := setCurrentJob (fun prev => merge_data prev data) s in
        if is_str (d_status data) "processing" then
          let s := setClipperPhase PDownloading s in
          if coin i then
            smartResults_arrive false (results i)
              (emit (FetchSmartResults jobId false) s)
          else s
        else if is_str (d_status data) "completed" then
          smartResults_arrive true (results i)
            (removeItem (emit (FetchSmartResults jobId true) (clearInterval s)))
        else if is_str (d_status data) "failed" then
          setClipperPhase PInput
            (removeItem
               (setCurrentJob (with_error (js_or (d_error data) (d_detail data)))
                  (clearInterval s)))
        else s
      end
  end.

(** ** [startRenderPolling]: the interval callback *)

Definition render_callback (i : TickInput) (s : App) : App :=
  let jobId := pollJobId s in
  let s := emit (FetchStatus jobId) s in
  match resp i with
  | NetworkError => s
  | Http _ None => s
  | Http _ (Some data) =>
    let s := emit (FetchLogs jobId) s in
    let s := setCurrentJob (fun prev => merge_data prev data) s in
    if is_str (d_status data) "completed" then
      let s := emit (FetchRenderResults jobId) (clearInterval s) in
      match results i with
      | ResultsError => s
      | ResultsOk rd =>
        match r_clips rd with
        | Some (c :: cs) => setClipperPhase PDone (setSmartResults (c :: cs) s)
        | _ =>
          setClipperPhase PSelect
            (emit (Alert "Rendering completed but no clips found. Check logs.") s)
        end
      end
    else if is_str (d_status data) "failed" then
      let reason :=
        match js_or (js_or (d_error data) (d_detail data)) (Some "Unknown error") with
        | Some m => m
        | None => ""
        end in
      setClipperPhase PSelect
        (emit (Alert ("Rendering failed: " ++ reason)) (clearInterval s))
    else s
  end.

(** ** [startPolling]: the interval callback *)

Definition server_crashed_error : string :=
  "⚠️ Server ran out of memory while loading Whisper model. Railway free tier has limited RAM (~512MB). Try: 1) Disable "
  ++ dquote ++ "Burn captions" ++ dquote
  ++ " to skip transcription, or 2) Use a local setup instead.".

Definition job_lost_error : string :=
  "⚠️ Job was lost because the server restarted (likely crashed from low memory). Disable "
  ++ dquote ++ "Burn captions" ++ dquote
  ++ " to skip the memory-heavy transcription step.".

Definition connection_lost_error : string :=
  "Lost connection to server. The server may have crashed or restarted. Please try again.".

(** The object [startPolling] puts in [currentJob] when it gives up. *)
Definition failedJob (jobId stg det err : string) : option Job :=
  Some (mkJob (Some jobId) (Some "failed") (Some 0%Q) (Some stg) (Some det)
              (Some err) None).

(** [res.status === 502 || res.status === 503 || res.status === 500] *)
Definition is_server_error (code : Z) : bool :=
  (code =? 502) || (code =? 503) || (code =? 500).

(** [fetchJobResult] *)
Definition fetchJobResult (jobId : string) (r : ResultsResponse) (s : App) : App :=
  let s := emit (FetchJobResult jobId) s in
  match r with
  | ResultsError => s
  | ResultsOk data => setJobResult (Some data) s
  end.

(** The [catch] block of the callback of [startPolling]. *)
Definition classic_catch (s : App) : App :=
  let jobId := pollJobId s in
  let s := setPollErrorCount (S (pollErrorCount s)) s in
  if (5 <=? pollErrorCount s)%nat then
    setCurrentJob
      (fun _ => failedJob jobId "Connection Lost" "Network error" connection_lost_error)
      (clearInterval s)
  else s.

Definition classic_callback (i : TickInput) (s : App) : App :=
  let jobId := pollJobId s in
  let s := emit (FetchStatus jobId) s in
  match resp i with
  | NetworkError => classic_catch s
  | Http code body =>
    if is_server_error code then
      let s := setPollErrorCount (S (pollErrorCount s)) s in
      if (3 <=? pollErrorCount s)%nat then
        setCurrentJob
          (fun _ => failedJob jobId "Server Crashed" "Out of memory" server_crashed_error)
          (clearInterval s)
      else s
    else if code =? 404 then
      let s := setPollErrorCount (S (pollErrorCount s)) s in
      if (2 <=? pollErrorCount s)%nat then
        setCurrentJob
          (fun _ => failedJob jobId "Job Lost" "Server restarted" job_lost_error)
          (clearInterval s)
      else s
    else
      let s := setPollErrorCount 0 s in
      match body with
      | None => classic_catch s
      | Some data =>
        let s :=
          setCurrentJob
            (fun _ => Some (mkJob (Some jobId) (d_status data) (d_progress data)
                                  (d_stage data) (d_detail data) (d_error data) None))
            s in
        if is_str (d_status data) "completed" then
          fetchJobResult jobId (results i) (clearInterval s)
        else if is_str (d_status data) "failed" || is_str (d_status data) "cancelled" then
          clearInterval s
        else s
      end
  end.

(** ** Starting a loop *)

(** [startSmartPolling(jobId)] up to the first firing. *)
Definition startSmartPolling (jobId : string) (s : App) : App :=
  setNotFoundCount 0 (setPoller (Some Smart) jobId s).

(** [startRenderPolling(jobId)] up to the first firing. *)
Definition startRenderPolling (jobId : string) (s : App) : App :=
  setPoller (Some Render) jobId s.

(** [startPolling(jobId)] up to the first firing. *)
Definition startPolling (jobId : string) (s : App) : App :=
  setPollErrorCount 0 (setPoller (Some Classic) jobId s).

(** The delay given to [setInterval] by each loop. *)
Definition interval_ms (p : Path) : Z :=
  match p with
  | Smart => 2000
  | Render => 2000
  | Classic => 2000
  end.

Definition callback (p : Path) : TickInput -> App -> App :=
  match p with
  | Smart => smart_callback
  | Render => render_callback
  | Classic => classic_callback
  end.

(** ** The two [localStorage] effects *)

(** The effect with dependencies [currentJob?.id] and [currentJob?.status]. *)
Definition persist_effect (s : App) : App :=
  match currentJob s with
  | Some j =>
    if truthy (id j) && is_str (status j) "processing" then
      match id j with
      | Some jid =>
        emit (StorageSet jid (now s))
          (setStored (Some (SavedJob (Some jid) (Some (now s)))) s)
      | None => s
      end
    else s
  | None => s
  end.

Definition opt_str_eqb (a b : option string) : bool :=
  match a, b with
  | Some x, Some y => String.eqb x y
  | None, None => true
  | _, _ => false
  end.

Definition dep_id (s : App) : option string :=
  match currentJob s with
  | Some j => id j
  | None => None
  end.

Definition dep_status (s : App) : option string :=
  match currentJob s with
  | Some j => status j
  | None => None
  end.

(** After an update React runs the effect again when a dependency changed. *)
Definition react_commit (before after : App) : App :=
  if opt_str_eqb (dep_id before) (dep_id after)
     && opt_str_eqb (dep_status before) (dep_status after)
  then after
  else persist_effect after.

(** [30 * 60 * 1000] *)
Definition resume_window_ms : Z := 30 * 60 * 1000.

(** The mount effect that resumes a saved job.  [Date.now() - startedAt] is
    [NaN] when [startedAt] is not a number, and [NaN < x] is false. *)
Definition resume_effect (s : App) : App :=
  match storedJob s, currentJob s with
  | Some saved, None =>
    match saved with
    | EmptyText => s
    | Malformed => removeItem s
    | SavedJob sid started =>
      match started with
      | Some t =>
        if now s - t <? resume_window_ms then
          let jid := match sid with Some x => x | None => "undefined" end in
          startSmartPolling jid
            (setClipperPhase PDownloading
               (setCurrentJob
                  (fun _ => Some (mkJob sid (Some "resuming") (Some 0%Q)
                                        (Some "Reconnecting...") None None None))
                  s))
        else removeItem s
      | None => removeItem s
      end
    end
  | _, _ => s
  end.

(** ** User actions *)

(** A handler followed by the effects its state updates trigger. *)
Definition committed (f : App -> App) (s : App) : App :=
  react_commit s (f s).

Definition id_text (j : option Job) : string :=
  match j with
  | Some (mkJob (Some x) _ _ _ _ _ _) => x
  | _ => "undefined"
  end.

Definition has_id (s : App) : bool :=
  match currentJob s with
  | Some j => truthy (id j)
  | None => false
  end.

(** The answer to the two requests that create a job. *)
Inductive SubmitResponse :=
| SubmitError (message : string)
| SubmitData (job_id : option string) (is_cached : option bool)
             (s_detail : option string).

Definition or_unknown (d : option string) : string :=
  match js_or d (Some "Unknown error") with
  | Some m => m
  | None => ""
  end.

(** [handleUpload], once a file was chosen. *)
Definition handleUpload (r : SubmitResponse) : App -> App :=
  committed (fun s =>
    let s := setJobResult None s in
    match r with
    | SubmitError m => emit (Alert ("Upload failed: " ++ m)) s
    | SubmitData jid _ det =>
      match jid with
      | Some j =>
        if truthy jid then
          startPolling j
            (setCurrentJob
               (fun _ => Some (mkJob jid (Some "processing") (Some 0%Q)
                                     (Some "Starting") None None None))
               s)
        else emit (Alert ("Upload failed: " ++ or_unknown det)) s
      | None => emit (Alert ("Upload failed: " ++ or_unknown det)) s
      end
    end).

(** [handleYoutubeSubmit], once a URL was typed. *)
Definition handleYoutubeSubmit (r : SubmitResponse) : App -> App :=
  committed (fun s =>
    let s := setClipperPhase PDownloading (setSmartResults [] (setJobResult None s)) in
    match r with
    | SubmitError m => setClipperPhase PInput (emit (Alert ("Failed: " ++ m)) s)
    | SubmitData jid c det =>
      match jid with
      | Some j =>
        if truthy jid then
          let stg :=
            match c with
            | Some true => "Using cached video"
            | _ => "Downloading video..."
            end in
          startSmartPolling j
            (setCurrentJob
               (fun _ => Some (mkJob jid (Some "processing") (Some 0%Q)
                                     (Some stg) None None c))
               s)
        else setClipperPhase PInput (emit (Alert ("Failed to start: " ++ or_unknown det)) s)
      | None => setClipperPhase PInput (emit (Alert ("Failed to start: " ++ or_unknown det)) s)
      end
    end).

(** The answer to [POST /clipper/job/:id/cancel]; [cancelled] is the
    truthiness of [data.cancelled]. *)
Inductive CancelResponse :=
| CancelError
| CancelData (cancelled : bool).

(** [handleCancelJob]: the cancel button of the smart flow. *)
Definition handleCancelJob (r : CancelResponse) : App -> App :=
  committed (fun s =>
    if has_id s then
      let s := emit (PostCancel (id_text (currentJob s))) s in
      match r with
      | CancelError => s
      | CancelData _ =>
        removeItem
          (setSmartResults []
             (setClipperPhase PInput
                (setCurrentJob (fun _ => None) (clearInterval s))))
      end
    else s).

Definition with_cancelling (prev : option Job) : option Job :=
  let j := spread prev in
  Some (mkJob (id j) (Some "cancelling") (progress j) (Some "Cancelling...")
              (Some "Waiting for current operation to complete") (error j)
              (cached j)).

(** [cancelJob]: the cancel button of the upload flow. *)
Definition cancelJob (r : CancelResponse) : App -> App :=
  committed (fun s =>
    if has_id s then
      let s := emit (PostCancel (id_text (currentJob s))) s in
      match r with
      | CancelError => s
      | CancelData c => if c then setCurrentJob with_cancelling s else s
      end
    else s).

(** The answer to [POST /clipper/smart/:id/render]; [clips_to_render] is the
    text the template literal prints for [data.clips_to_render]. *)
Inductive RenderResponse :=
| RenderError (message : string)
| RenderData (rstatus : option string) (clips_to_render : string).

Definition with_queued (n : string) (prev : option Job) : option Job :=
  let j := spread prev in
  Some (mkJob (id j) (Some "queued") (progress j)
              (Some "Waiting for local worker")
              (Some ("Ready to render " ++ n ++ " clips on your PC"))
              (error j) (cached j)).

Definition with_rendering (prev : option Job) : option Job :=
  let j := spread prev in
  Some (mkJob (id j) (Some "rendering") (Some 0%Q)
              (Some "Rendering on Railway...") (detail j) (error j) (cached j)).

(** [handleRenderSelected(renderOnPC)] with [selected] candidates chosen.
    Reading [currentJob.id] throws inside the [try] when there is no job. *)
Definition handleRenderSelected (renderOnPC : bool) (selected : nat)
    (r : RenderResponse) : App -> App :=
  committed (fun s =>
    match selected with
    | O => emit (Alert "Please select at least one clip to render") s
    | S _ =>
      let s := setClipperPhase PRendering s in
      match currentJob s with
      | None =>
        setClipperPhase PSelect
          (emit (Alert "Failed to start rendering: Cannot read properties of null (reading 'id')") s)
      | Some _ =>
        let jid := id_text (currentJob s) in
        let s := emit (PostRender jid renderOnPC) s in
        match r with
        | RenderError m =>
          setClipperPhase PSelect (emit (Alert ("Failed to start rendering: " ++ m)) s)
        | RenderData st n =>
          if is_str st "queued" then
            startSmartPolling jid
              (setClipperPhase PWaiting (setCurrentJob (with_queued n) s))
          else if is_str st "rendering" then
            startRenderPolling jid (setCurrentJob with_rendering s)
          else s
        end
      end
    end).

(** ** Running a loop *)

(** One firing of the live interval; nothing fires once it is cleared. *)
Definition tick (i : TickInput) (s : App) : App :=
  match poller s with
  | None => s
  | Some p =>
    let s1 := advance (interval_ms p) s in
    react_commit s1 (callback p i s1)
  end.

Fixpoint run (inputs : list TickInput) (s : App) : App :=
  match inputs with
  | [] => s
  | i :: rest => run rest (tick i s)
  end.


(** ** [toggleCandidateSelection] *)

(** A JavaScript [Set] of candidate indices: its members in insertion
    order, each once. *)
Definition IndexSet := list Z.

(** [set.has(x)] *)
Definition set_has (x : Z) (l : IndexSet) : bool :=
  existsb (Z.eqb x) l.

(** [set.delete(x)] *)
Definition set_delete (x : Z) (l : IndexSet) : IndexSet :=
  filter (fun y => negb (y =? x)) l.

(** [set.add(x)]: a new member goes last, a member stays where it is. *)
Definition set_add (x : Z) (l : IndexSet) : IndexSet :=
  if set_has x l then l else (l ++ [x])%list.

(** The updater given to [setSelectedCandidates]. *)
Definition toggleCandidateSelection (index : Z) (prev : IndexSet) : IndexSet :=
  let newSet := prev in
  if set_has index newSet then set_delete index newSet else set_add index newSet.

(** ** The saved settings *)











(** ** [formatTime] *)






(** * Vocabulary of the properties *)

(** ** Classifying responses *)

Definition is_not_found (r : Response) : bool :=
  match r with
  | Http code _ => code =? 404
  | NetworkError => false
  end.

Definition is_5xx (r : Response) : bool :=
  match r with
  | Http code _ => is_server_error code
  | NetworkError => false
  end.

Definition is_network_error (r : Response) : bool :=
  match r with
  | NetworkError => true
  | Http _ _ => false
  end.

(** The errors [startPolling] counts towards giving up. *)
Definition is_transient (r : Response) : bool :=
  is_5xx r || is_not_found r || is_network_error r.

(** ** The control state of a loop *)

(** The part of the state that decides whether a loop goes on. *)
Record Control := mkControl {
  k_poller : option Path;
  k_notFound : nat;
  k_errors : nat
}.

Definition control (s : App) : Control :=
  mkControl (poller s) (notFoundCount s) (pollErrorCount s).

(** How one response moves the control state of each loop; [stops] tells
    whether the body carries a status at which the loop ends. *)
Definition smart_stops (d : JobData) : bool :=
  negb (is_str (d_status d) "processing")
  && (is_str (d_status d) "completed" || is_str (d_status d) "failed").

Definition render_stops (d : JobData) : bool :=
  is_str (d_status d) "completed" || is_str (d_status d) "failed".

Definition classic_stops (d : JobData) : bool :=
  is_str (d_status d) "completed" || is_str (d_status d) "failed"
  || is_str (d_status d) "cancelled".

Definition control_step (p : Path) (r : Response) (k : Control) : Control :=
  match p, r with
  | Smart, NetworkError => k
  | Smart, Http code body =>
    if code =? 404 then
      if (3 <=? S (k_notFound k))%nat
      then mkControl None (S (k_notFound k)) (k_errors k)
      else mkControl (k_poller k) (S (k_notFound k)) (k_errors k)
    else
      match body with
      | Some d =>
        if smart_stops d then mkControl None 0 (k_errors k)
        else mkControl (k_poller k) 0 (k_errors k)
      | None => mkControl (k_poller k) 0 (k_errors k)
      end
  | Render, Http _ (Some d) =>
    if render_stops d then mkControl None (k_notFound k) (k_errors k) else k
  | Render, _ => k
  | Classic, NetworkError =>
    if (5 <=? S (k_errors k))%nat
    then mkControl None (k_notFound k) (S (k_errors k))
    else mkControl (k_poller k) (k_notFound k) (S (k_errors k))
  | Classic, Http code body =>
    if is_server_error code then
      if (3 <=? S (k_errors k))%nat
      then mkControl None (k_notFound k) (S (k_errors k))
      else mkControl (k_poller k) (k_notFound k) (S (k_errors k))
    else if code =? 404 then
      if (2 <=? S (k_errors k))%nat
      then mkControl None (k_notFound k) (S (k_errors k))
      else mkControl (k_poller k) (k_notFound k) (S (k_errors k))
    else
      match body with
      | Some d =>
        if classic_stops d then mkControl None (k_notFound k) 0
        else mkControl (k_poller k) (k_notFound k) 0
      | None => mkControl (k_poller k) (k_notFound k) 1
      end
  end.

(** ** Runs over answers of one kind *)

Definition all_resp (P : Response -> bool) (inputs : list TickInput) : Prop :=
  Forall (fun i => P (resp i) = true) inputs.

Definition job_error (s : App) : option string :=
  match currentJob s with
  | Some j => error j
  | None => None
  end.

Definition job_stage (s : App) : option string :=
  match currentJob s with
  | Some j => stage j
  | None => None
  end.

Definition job_lost_text (p : Path) : string :=
  match p with
  | Classic => job_lost_error
  | _ => job_lost_smart
  end.

(** The error counter each loop keeps. *)
Definition error_counter (p : Path) (s : App) : nat :=
  match p with
  | Smart => notFoundCount s
  | Classic => pollErrorCount s
  | Render => 0%nat
  end.

(** ** Requests in the trace *)

Definition is_status_fetch (e : Event) : bool :=
  match e with
  | FetchStatus _ => true
  | _ => false
  end.

(** The request for the results of a finished job: [fetchSmartResults(jobId,
    true)], the results request of [startRenderPolling], [fetchJobResult]. *)
Definition is_final_fetch (e : Event) : bool :=
  match e with
  | FetchSmartResults _ true => true
  | FetchRenderResults _ => true
  | FetchJobResult _ => true
  | _ => false
  end.

Definition count_events (P : Event -> bool) (tr : list (Z * Event)) : nat :=
  length (filter (fun te => P (snd te)) tr).

Definition status_fetch_times (tr : list (Z * Event)) : list Z :=
  map fst (filter (fun te => is_status_fetch (snd te)) tr).

(** The body a callback goes on to read, when the response gets that far. *)
Definition delivered (p : Path) (r : Response) : option JobData :=
  match r with
  | NetworkError => None
  | Http code body =>
    match p with
    | Smart => if code =? 404 then None else body
    | Render => body
    | Classic =>
      if is_server_error code then None
      else if code =? 404 then None else body
    end
  end.

(** The callback reads a body whose status is [st]. *)
Definition observes (p : Path) (r : Response) (st : string) : bool :=
  match delivered p r with
  | Some d => is_str (d_status d) st
  | None => false
  end.

Definition quiet (evs : list (Z * Event)) : Prop :=
  Forall (fun te => is_status_fetch (snd te) = false /\ is_final_fetch (snd te) = false) evs.

(** The times [base + period], [base + 2 * period], ... of [n] firings. *)
Definition firing_times (base period : Z) (n : nat) : list Z :=
  map (fun k => base + period * Z.of_nat k) (seq 1 n).

(** ** Limits on failed requests *)

(** The state [VideoClipperPage] mounts with. *)
Definition initialApp : App :=
  mkApp None PInput [] None None None "" 0 0 0 [].

(** The kinds of failed status request [startPolling] tells apart. *)
Inductive ErrorKind := ServerError | NotFound | Network.

Definition has_kind (k : ErrorKind) : Response -> bool :=
  match k with
  | ServerError => is_5xx
  | NotFound => is_not_found
  | Network => is_network_error
  end.

(** The count of failed requests of one kind at which a loop gives up, for
    the kinds the loop counts. *)
Definition give_up_limit (p : Path) (k : ErrorKind) : option nat :=
  match p, k with
  | Classic, ServerError => Some 3%nat
  | Classic, NotFound => Some 2%nat
  | Classic, Network => Some 5%nat
  | Smart, NotFound => Some 3%nat
  | _, _ => None
  end.

(** The fewest failed requests in a row, counted from zero, at which a
    counting loop can give up. *)
Definition give_up_floor (p : Path) : option nat :=
  match p with
  | Smart => Some 3%nat
  | Classic => Some 2%nat
  | Render => None
  end.

(** A request that did not deliver a body to the callback. *)
Definition failed_fetch (p : Path) (r : Response) : bool :=
  match delivered p r with
  | Some _ => false
  | None => true
  end.

(** ** Concrete jobs and answers *)

(** A job created from a URL, polled by [startSmartPolling]. *)
Definition smartJob : App :=
  handleYoutubeSubmit (SubmitData (Some "job-1") None None) initialApp.

(** A job created from an upload, polled by [startPolling]. *)
Definition uploadJob : App :=
  handleUpload (SubmitData (Some "job-1") None None) initialApp.

(** The same job once its rendering on the server was requested, polled by
    [startRenderPolling]. *)
Definition renderJob : App :=
  handleRenderSelected false 1 (RenderData (Some "rendering") "1") smartJob.

Definition answer (r : Response) : TickInput := mkTick r false ResultsError.

Definition body_of (st : string) (pr : Q) : JobData :=
  mkJobData (Some st) (Some pr) (Some "stage") None None.

(** ** Progress while processing *)

Definition job_progress (s : App) : option Q :=
  match currentJob s with
  | Some j => progress j
  | None => None
  end.







(** ** Statuses *)

(** The statuses at which a loop clears its interval. *)
Definition stop_status (p : Path) (st : option string) : bool :=
  match p with
  | Classic => is_str st "completed" || is_str st "failed" || is_str st "cancelled"
  | _ => is_str st "completed" || is_str st "failed"
  end.



(** ** Cancellation on the server *)














(** ** Further vocabulary: failed requests, reloads *)

Definition is_not_found_or_offline (r : Response) : bool :=
  is_not_found r || is_network_error r.

(** The number of answers of a run that satisfy [P]. *)
Definition count_resp (P : Response -> bool) (inputs : list TickInput) : nat :=
  length (filter (fun i => P (resp i)) inputs).

(** The firing reads a body whose status ends loop [p]. *)
Definition stops_loop (p : Path) (i : TickInput) : bool :=
  match delivered p (resp i) with
  | Some d => stop_status p (d_status d)
  | None => false
  end.

(** A response with a status code that [startPolling] does not treat as an
    error and a body that is not JSON. *)
Definition is_unreadable (r : Response) : bool :=
  match r with
  | Http code None => negb (is_server_error code) && negb (code =? 404)
  | _ => false
  end.

(** The page once it is loaded at time [t] with [stored] in [localStorage]:
    the initial state of the component, then the mount effect. *)
Definition pageLoad (stored : option Stored) (t : Z) : App :=
  resume_effect (mkApp None PInput [] None stored None "" 0 0 t []).

(** The text a template literal prints for the [id] of a saved record. *)
Definition url_text (sid : option string) : string :=
  match sid with
  | Some x => x
  | None => "undefined"
  end.

(** The entry holds a record that the mount effect can read. *)
Definition is_saved (v : option Stored) : bool :=
  match v with
  | Some (SavedJob _ (Some _)) => true
  | _ => false
  end.

Definition shown_ready (s : App) : Prop :=
  Forall (fun c => c_ready c <> Some false) (smartResults s).

(** The job id a submission answer carries, when it is truthy. *)
Definition started_job (r : SubmitResponse) : option string :=
  match r with
  | SubmitData (Some j) _ _ => if String.eqb j "" then None else Some j
  | _ => None
  end.

Definition is_alert (e : Event) : bool :=
  match e with
  | Alert _ => true
  | _ => false
  end.

Definition is_post_render (e : Event) : bool :=
  match e with
  | PostRender _ _ => true
  | _ => false
  end.

Definition is_post_cancel (e : Event) : bool :=
  match e with
  | PostCancel _ => true
  | _ => false
  end.

(** The events a step added to the trace. *)
Definition added (before after : App) : list (Z * Event) :=
  skipn (length (trace before)) (trace after).

(** The results answer carries at least one clip. *)
Definition has_clips (r : ResultsResponse) : bool :=
  match r with
  | ResultsOk (mkResultData _ (Some (_ :: _))) => true
  | _ => false
  end.

Definition is_results_error (r : ResultsResponse) : bool :=
  match r with
  | ResultsError => true
  | ResultsOk _ => false
  end.

(** ** Vocabulary for the selection, the settings and the time format *)




(** * Properties *)

(** ** Basic facts about the effects *)

Lemma opt_str_eqb_refl (a : option string) : opt_str_eqb a a = true.
Proof. destruct a as [x|]; simpl; [apply String.eqb_refl | reflexivity]. Qed.

Lemma persist_effect_fields (s : App) :
  currentJob (persist_effect s) = currentJob s /\
  clipperPhase (persist_effect s) = clipperPhase s /\
  poller (persist_effect s) = poller s /\
  pollJobId (persist_effect s) = pollJobId s /\
  notFoundCount (persist_effect s) = notFoundCount s /\
  pollErrorCount (persist_effect s) = pollErrorCount s /\
  now (persist_effect s) = now s.
Proof.
  unfold persist_effect.
  destruct (currentJob s) as [j|] eqn:Hj; [|repeat split; assumption].
  destruct (truthy (id j) && is_str (status j) "processing");
    [|repeat split; assumption].
  destruct (id j); simpl; repeat split; assumption.
Qed.

Lemma react_commit_fields (a b : App) :
  currentJob (react_commit a b) = currentJob b /\
  clipperPhase (react_commit a b) = clipperPhase b /\
  poller (react_commit a b) = poller b /\
  pollJobId (react_commit a b) = pollJobId b /\
  notFoundCount (react_commit a b) = notFoundCount b /\
  pollErrorCount (react_commit a b) = pollErrorCount b /\
  now (react_commit a b) = now b.
Proof.
  unfold react_commit.
  destruct (opt_str_eqb (dep_id a) (dep_id b) && opt_str_eqb (dep_status a) (dep_status b)).
  - repeat split.
  - apply persist_effect_fields.
Qed.

Lemma tick_idle (i : TickInput) (s : App) : poller s = None -> tick i s = s.
Proof. intros H. unfold tick. rewrite H. reflexivity. Qed.

Lemma run_idle (inputs : list TickInput) (s : App) :
  poller s = None -> run inputs s = s.
Proof.
  induction inputs as [|i rest IH]; intros H; simpl; [reflexivity|].
  rewrite tick_idle by assumption. apply IH, H.
Qed.

(** ** The control state of a loop *)

Lemma control_tick (p : Path) (i : TickInput) (s : App) :
  poller s = Some p ->
  control (tick i s) = control_step p (resp i) (control s).
Proof.
  intros Hp. unfold tick. rewrite Hp.
  destruct (react_commit_fields (advance (interval_ms p) s)
              (callback p i (advance (interval_ms p) s)))
    as (_ & _ & H1 & _ & H2 & H3 & _).
  unfold control. rewrite H1, H2, H3. clear H1 H2 H3.
  destruct s as [cj ph sr jr st po pj nf pe nw tr]. simpl in Hp. subst po.
  destruct i as [r c rs].
  destruct p; simpl; unfold smart_callback, render_callback, classic_callback,
    classic_catch; simpl.
  - destruct r as [|code body]; simpl; [reflexivity|].
    destruct (code =? 404); simpl.
    + destruct nf as [|[|[|nf]]]; reflexivity.
    + destruct body as [d|]; simpl; [|reflexivity].
      unfold smart_stops.
      destruct (is_str (d_status d) "processing"); simpl.
      * destruct c; [|reflexivity].
        destruct rs as [|[sc [[|cl cls]|]]]; reflexivity.
      * destruct (is_str (d_status d) "completed"); simpl.
        { destruct rs as [|[sc [[|cl cls]|]]]; reflexivity. }
        destruct (is_str (d_status d) "failed"); reflexivity.
  - destruct r as [|code [d|]]; simpl; try reflexivity.
    unfold render_stops.
    destruct (is_str (d_status d) "completed"); simpl.
    + destruct rs as [|[sc [[|cl cls]|]]]; reflexivity.
    + destruct (is_str (d_status d) "failed"); reflexivity.
  - destruct r as [|code body]; simpl.
    + destruct pe as [|[|[|[|[|pe]]]]]; reflexivity.
    + destruct (is_server_error code); simpl.
      * destruct pe as [|[|[|pe]]]; reflexivity.
      * destruct (code =? 404); simpl.
        { destruct pe as [|[|pe]]; reflexivity. }
        destruct body as [d|]; simpl; [|reflexivity].
        unfold classic_stops.
        destruct (is_str (d_status d) "completed"); simpl.
        { destruct rs; reflexivity. }
        destruct (is_str (d_status d) "failed" || is_str (d_status d) "cancelled");
          reflexivity.
Qed.

(** ** Requests in the trace *)

Lemma count_events_app (P : Event -> bool) (a b : list (Z * Event)) :
  count_events P (a ++ b)%list = (count_events P a + count_events P b)%nat.
Proof. unfold count_events. rewrite filter_app, length_app. reflexivity. Qed.

Lemma is_str_true (v : option string) (lit : string) :
  is_str v lit = true -> v = Some lit.
Proof.
  destruct v as [x|]; simpl; [|discriminate].
  intros H. apply String.eqb_eq in H. congruence.
Qed.

Lemma persist_effect_trace (s : App) :
  exists l, trace (persist_effect s) = (trace s ++ l)%list /\ quiet l.
Proof.
  unfold persist_effect.
  destruct (currentJob s) as [j|];
    [|exists []; rewrite app_nil_r; split; [reflexivity|constructor]].
  destruct (truthy (id j) && is_str (status j) "processing");
    [|exists []; rewrite app_nil_r; split; [reflexivity|constructor]].
  destruct (id j) as [jid|];
    [|exists []; rewrite app_nil_r; split; [reflexivity|constructor]].
  eexists. split; [reflexivity|]. repeat constructor.
Qed.

Lemma react_commit_trace (a b : App) :
  exists l, trace (react_commit a b) = (trace b ++ l)%list /\ quiet l.
Proof.
  unfold react_commit.
  destruct (opt_str_eqb (dep_id a) (dep_id b) && opt_str_eqb (dep_status a) (dep_status b)).
  - exists []. rewrite app_nil_r. split; [reflexivity|constructor].
  - apply persist_effect_trace.
Qed.

Ltac trace_leaf :=
  simpl; rewrite <- ?app_assoc; simpl;
  eexists; split; [reflexivity|]; split; [repeat constructor|reflexivity].

(** What a firing adds to the trace: the status request first, stamped with
    the time of the firing, then requests none of which is a status request,
    and among them one request for final results exactly when the callback
    read the status [completed]. *)
Lemma callback_trace (p : Path) (i : TickInput) (s : App) :
  exists evs,
    trace (callback p i s)
      = (trace s ++ (now s, FetchStatus (pollJobId s)) :: evs)%list /\
    Forall (fun te => is_status_fetch (snd te) = false) evs /\
    count_events is_final_fetch evs
      = if observes p (resp i) "completed" then 1%nat else 0%nat.
Proof.
  destruct s as [cj ph sr jr st po pj nf pe nw tr].
  destruct i as [r c rs].
  destruct p; simpl; unfold smart_callback, render_callback, classic_callback,
    classic_catch, observes, delivered; simpl.
  - destruct r as [|code body]; [trace_leaf|].
    destruct (code =? 404).
    + destruct nf as [|[|[|nf]]]; trace_leaf.
    + destruct body as [d|]; [|trace_leaf].
      destruct (is_str (d_status d) "processing") eqn:E1.
      * apply is_str_true in E1. rewrite E1.
        destruct c; [|trace_leaf].
        destruct rs as [|[sc [[|cl cls]|]]]; trace_leaf.
      * destruct (is_str (d_status d) "completed") eqn:E2.
        { destruct rs as [|[sc [[|cl cls]|]]]; trace_leaf. }
        destruct (is_str (d_status d) "failed"); trace_leaf.
  - destruct r as [|code [d|]]; try trace_leaf.
    destruct (is_str (d_status d) "completed") eqn:E2.
    + destruct rs as [|[sc [[|cl cls]|]]]; trace_leaf.
    + destruct (is_str (d_status d) "failed"); trace_leaf.
  - destruct r as [|code body].
    + destruct pe as [|[|[|[|[|pe]]]]]; trace_leaf.
    + destruct (is_server_error code).
      * destruct pe as [|[|[|pe]]]; trace_leaf.
      * destruct (code =? 404).
        { destruct pe as [|[|pe]]; trace_leaf. }
        destruct body as [d|]; [|trace_leaf].
        destruct (is_str (d_status d) "completed") eqn:E2.
        { destruct rs; trace_leaf. }
        destruct (is_str (d_status d) "failed" || is_str (d_status d) "cancelled");
          trace_leaf.
Qed.

Lemma quiet_no_status (l : list (Z * Event)) :
  quiet l -> Forall (fun te => is_status_fetch (snd te) = false) l.
Proof. apply Forall_impl. intros a [H _]. exact H. Qed.

Lemma quiet_no_final (l : list (Z * Event)) :
  quiet l -> count_events is_final_fetch l = 0%nat.
Proof.
  induction 1 as [|a l [_ Ha] _ IH]; [reflexivity|].
  unfold count_events in *. simpl. rewrite Ha. exact IH.
Qed.

Lemma tick_trace (p : Path) (i : TickInput) (s : App) :
  poller s = Some p ->
  exists evs,
    trace (tick i s)
      = (trace s ++ (now s + interval_ms p, FetchStatus (pollJobId s)) :: evs)%list /\
    Forall (fun te => is_status_fetch (snd te) = false) evs /\
    count_events is_final_fetch evs
      = if observes p (resp i) "completed" then 1%nat else 0%nat.
Proof.
  intros Hp. unfold tick. rewrite Hp.
  destruct (callback_trace p i (advance (interval_ms p) s)) as (evs & Ht & Hq & Hf).
  destruct (react_commit_trace (advance (interval_ms p) s)
              (callback p i (advance (interval_ms p) s))) as (l & Hl & Hql).
  exists (evs ++ l)%list. rewrite Hl, Ht. simpl.
  rewrite <- app_assoc. simpl. split; [reflexivity|]. split.
  - apply Forall_app. split; [assumption|apply quiet_no_status, Hql].
  - rewrite count_events_app, Hf, (quiet_no_final l Hql). lia.
Qed.

Lemma no_status_count (l : list (Z * Event)) :
  Forall (fun te => is_status_fetch (snd te) = false) l ->
  count_events is_status_fetch l = 0%nat /\ status_fetch_times l = [].
Proof.
  induction 1 as [|a l Ha _ [IH1 IH2]]; [split; reflexivity|].
  unfold count_events, status_fetch_times in *. simpl. rewrite Ha. split; assumption.
Qed.

Lemma tick_counts (p : Path) (i : TickInput) (s : App) :
  poller s = Some p ->
  count_events is_status_fetch (trace (tick i s))
    = S (count_events is_status_fetch (trace s)) /\
  count_events is_final_fetch (trace (tick i s))
    = (count_events is_final_fetch (trace s)
       + if observes p (resp i) "completed" then 1 else 0)%nat /\
  status_fetch_times (trace (tick i s))
    = (status_fetch_times (trace s) ++ [now s + interval_ms p])%list.
Proof.
  intros Hp. destruct (tick_trace p i s Hp) as (evs & Ht & Hq & Hf).
  destruct (no_status_count evs Hq) as [Hc Htimes].
  rewrite Ht. repeat split.
  - rewrite count_events_app. unfold count_events at 2. simpl.
    fold (count_events is_status_fetch evs). rewrite Hc. lia.
  - rewrite count_events_app. unfold count_events at 2. simpl.
    fold (count_events is_final_fetch evs). rewrite Hf. reflexivity.
  - unfold status_fetch_times. rewrite filter_app, map_app. simpl.
    fold (status_fetch_times evs). rewrite Htimes. reflexivity.
Qed.

Ltac callback_leaf := solve [repeat split; auto; try discriminate].

Lemma callback_now (p : Path) (i : TickInput) (s : App) :
  now (callback p i s) = now s /\ pollJobId (callback p i s) = pollJobId s /\
  (storedJob (callback p i s) = storedJob s \/ storedJob (callback p i s) = None).
Proof.
  destruct s as [cj ph sr jr st po pj nf pe nw tr].
  destruct i as [r c rs].
  destruct p; simpl; unfold smart_callback, render_callback, classic_callback,
    classic_catch; simpl.
  - destruct r as [|code body]; [callback_leaf|].
    destruct (code =? 404).
    + destruct nf as [|[|[|nf]]]; callback_leaf.
    + destruct body as [d|]; [|callback_leaf].
      destruct (is_str (d_status d) "processing").
      * destruct c; [|callback_leaf].
        destruct rs as [|[sc [[|cl cls]|]]]; callback_leaf.
      * destruct (is_str (d_status d) "completed").
        { destruct rs as [|[sc [[|cl cls]|]]]; callback_leaf. }
        destruct (is_str (d_status d) "failed"); callback_leaf.
  - destruct r as [|code [d|]]; try (callback_leaf).
    destruct (is_str (d_status d) "completed").
    + destruct rs as [|[sc [[|cl cls]|]]]; callback_leaf.
    + destruct (is_str (d_status d) "failed"); callback_leaf.
  - destruct r as [|code body].
    + destruct pe as [|[|[|[|[|pe]]]]]; callback_leaf.
    + destruct (is_server_error code).
      * destruct pe as [|[|[|pe]]]; callback_leaf.
      * destruct (code =? 404).
        { destruct pe as [|[|pe]]; callback_leaf. }
        destruct body as [d|]; [|callback_leaf].
        destruct (is_str (d_status d) "completed").
        { destruct rs; callback_leaf. }
        destruct (is_str (d_status d) "failed" || is_str (d_status d) "cancelled");
          callback_leaf.
Qed.

Lemma tick_now (p : Path) (i : TickInput) (s : App) :
  poller s = Some p ->
  now (tick i s) = now s + interval_ms p /\ pollJobId (tick i s) = pollJobId s.
Proof.
  intros Hp. unfold tick. rewrite Hp.
  destruct (react_commit_fields (advance (interval_ms p) s)
              (callback p i (advance (interval_ms p) s)))
    as (_ & _ & _ & H4 & _ & _ & H7).
  rewrite H4, H7.
  destruct (callback_now p i (advance (interval_ms p) s)) as (H1 & H2 & _).
  rewrite H1, H2. split; reflexivity.
Qed.

Lemma control_step_poller (p : Path) (r : Response) (k : Control) :
  k_poller (control_step p r k) = k_poller k \/ k_poller (control_step p r k) = None.
Proof.
  unfold control_step.
  destruct p, r as [|code body]; auto;
    repeat match goal with
           | |- context [if ?c then _ else _] => destruct c
           | |- context [match ?b with Some _ => _ | None => _ end] => destruct b
           end; simpl; auto.
Qed.

Lemma tick_poller (p : Path) (i : TickInput) (s : App) :
  poller s = Some p -> poller (tick i s) = Some p \/ poller (tick i s) = None.
Proof.
  intros Hp. pose proof (control_tick p i s Hp) as H.
  apply (f_equal k_poller) in H. simpl in H. rewrite H.
  destruct (control_step_poller p (resp i) (control s)) as [E|E];
    rewrite E; simpl; auto.
Qed.

Lemma completed_stops (p : Path) (r : Response) (k : Control) :
  observes p r "completed" = true -> k_poller (control_step p r k) = None.
Proof.
  unfold observes, delivered.
  destruct p, r as [|code body]; simpl; try discriminate.
  - destruct (code =? 404); [discriminate|].
    destruct body as [d|]; [|discriminate].
    intros H. apply is_str_true in H. unfold smart_stops. rewrite H. reflexivity.
  - destruct body as [d|]; [|discriminate].
    intros H. unfold render_stops. rewrite H. reflexivity.
  - destruct (is_server_error code); [discriminate|].
    destruct (code =? 404); [discriminate|].
    destruct body as [d|]; [|discriminate].
    intros H. unfold classic_stops. rewrite H. reflexivity.
Qed.

(** ** Counting failed requests *)

Lemma smart_tick_404 (i : TickInput) (s : App) :
  poller s = Some Smart -> is_not_found (resp i) = true ->
  notFoundCount (tick i s) = S (notFoundCount s) /\
  pollJobId (tick i s) = pollJobId s /\
  if (3 <=? S (notFoundCount s))%nat
  then poller (tick i s) = None /\
       currentJob (tick i s) = with_status_error "failed" job_lost_smart (currentJob s)
       /\ clipperPhase (tick i s) = PInput
  else poller (tick i s) = Some Smart /\ currentJob (tick i s) = currentJob s.
Proof.
  intros Hp Hr. unfold tick. rewrite Hp.
  destruct (react_commit_fields (advance (interval_ms Smart) s)
              (callback Smart i (advance (interval_ms Smart) s)))
    as (H1 & H2 & H3 & H4 & H5 & _).
  rewrite H1, H2, H3, H4, H5. clear H1 H2 H3 H4 H5.
  destruct (resp i) as [|code body] eqn:Er; simpl in Hr; [discriminate|].
  destruct s as [cj ph sr jr st po pj nf pe nw tr]. simpl in Hp. subst po.
  simpl. unfold smart_callback. simpl. rewrite Er, Hr. simpl.
  destruct nf as [|[|[|nf]]]; simpl; repeat split; reflexivity.
Qed.

Lemma smart_run_404 (inputs : list TickInput) :
  forall s, poller s = Some Smart -> all_resp is_not_found inputs ->
  (notFoundCount s < 3)%nat ->
  ((notFoundCount s + length inputs < 3)%nat ->
     poller (run inputs s) = Some Smart /\
     currentJob (run inputs s) = currentJob s) /\
  ((3 <= notFoundCount s + length inputs)%nat ->
     poller (run inputs s) = None /\
     currentJob (run inputs s)
       = with_status_error "failed" job_lost_smart (currentJob s) /\
     clipperPhase (run inputs s) = PInput).
Proof.
  induction inputs as [|i rest IH]; intros s Hp Hall Hn.
  - simpl. split; [intros _; split; [assumption|reflexivity] | lia].
  - inversion Hall as [|? ? Hi Hrest]; subst.
    destruct (smart_tick_404 i s Hp Hi) as (Hc & _ & Hif).
    simpl run. simpl length.
    destruct (3 <=? S (notFoundCount s))%nat eqn:E.
    + apply Nat.leb_le in E. destruct Hif as (Hstop & Hjob & Hph).
      split; [lia|]. intros _. rewrite run_idle by assumption.
      repeat split; assumption.
    + apply Nat.leb_gt in E. destruct Hif as (Hgo & Hjob).
      destruct (IH (tick i s) Hgo Hrest) as [IH1 IH2]; [lia|].
      rewrite Hc, Hjob in *. split; intros Hlen.
      * apply IH1. lia.
      * apply IH2. lia.
Qed.

Lemma classic_tick_404 (i : TickInput) (s : App) :
  poller s = Some Classic -> is_not_found (resp i) = true ->
  pollErrorCount (tick i s) = S (pollErrorCount s) /\
  pollJobId (tick i s) = pollJobId s /\
  if (2 <=? S (pollErrorCount s))%nat
  then poller (tick i s) = None /\
       currentJob (tick i s)
         = failedJob (pollJobId s) "Job Lost" "Server restarted" job_lost_error
  else poller (tick i s) = Some Classic /\ currentJob (tick i s) = currentJob s.
Proof.
  intros Hp Hr. unfold tick. rewrite Hp.
  destruct (react_commit_fields (advance (interval_ms Classic) s)
              (callback Classic i (advance (interval_ms Classic) s)))
    as (H1 & H2 & H3 & H4 & _ & H5 & _).
  rewrite H1, H3, H4, H5. clear H1 H2 H3 H4 H5.
  destruct (resp i) as [|code body] eqn:Er; simpl in Hr; [discriminate|].
  apply Z.eqb_eq in Hr. subst code.
  destruct s as [cj ph sr jr st po pj nf pe nw tr]. simpl in Hp. subst po.
  simpl. unfold classic_callback. simpl. rewrite Er. simpl.
  destruct pe as [|[|pe]]; simpl; repeat split; reflexivity.
Qed.

Lemma classic_tick_5xx (i : TickInput) (s : App) :
  poller s = Some Classic -> is_5xx (resp i) = true ->
  pollErrorCount (tick i s) = S (pollErrorCount s) /\
  pollJobId (tick i s) = pollJobId s /\
  if (3 <=? S (pollErrorCount s))%nat
  then poller (tick i s) = None /\
       currentJob (tick i s)
         = failedJob (pollJobId s) "Server Crashed" "Out of memory" server_crashed_error
  else poller (tick i s) = Some Classic /\ currentJob (tick i s) = currentJob s.
Proof.
  intros Hp Hr. unfold tick. rewrite Hp.
  destruct (react_commit_fields (advance (interval_ms Classic) s)
              (callback Classic i (advance (interval_ms Classic) s)))
    as (H1 & H2 & H3 & H4 & _ & H5 & _).
  rewrite H1, H3, H4, H5. clear H1 H2 H3 H4 H5.
  destruct (resp i) as [|code body] eqn:Er; simpl in Hr; [discriminate|].
  destruct s as [cj ph sr jr st po pj nf pe nw tr]. simpl in Hp. subst po.
  simpl. unfold classic_callback. simpl. rewrite Er, Hr. simpl.
  destruct pe as [|[|[|pe]]]; simpl; repeat split; reflexivity.
Qed.

Lemma classic_tick_network (i : TickInput) (s : App) :
  poller s = Some Classic -> is_network_error (resp i) = true ->
  pollErrorCount (tick i s) = S (pollErrorCount s) /\
  pollJobId (tick i s) = pollJobId s /\
  if (5 <=? S (pollErrorCount s))%nat
  then poller (tick i s) = None /\
       currentJob (tick i s)
         = failedJob (pollJobId s) "Connection Lost" "Network error" connection_lost_error
  else poller (tick i s) = Some Classic /\ currentJob (tick i s) = currentJob s.
Proof.
  intros Hp Hr. unfold tick. rewrite Hp.
  destruct (react_commit_fields (advance (interval_ms Classic) s)
              (callback Classic i (advance (interval_ms Classic) s)))
    as (H1 & H2 & H3 & H4 & _ & H5 & _).
  rewrite H1, H3, H4, H5. clear H1 H2 H3 H4 H5.
  destruct (resp i) as [|code body] eqn:Er; simpl in Hr; [|discriminate].
  destruct s as [cj ph sr jr st po pj nf pe nw tr]. simpl in Hp. subst po.
  simpl. unfold classic_callback, classic_catch. simpl. rewrite Er. simpl.
  destruct pe as [|[|[|[|[|pe]]]]]; simpl; repeat split; reflexivity.
Qed.

(** A run of [startPolling] over answers of one counted kind: the loop goes
    on, leaving the job as it was, until the counter reaches the limit of
    that kind, and the firing at which it does is the last one. *)
Section ClassicCounted.

Variable counted : Response -> bool.
Variable limit : nat.
Variables stg det err : string.

Hypothesis counted_tick : forall i s,
  poller s = Some Classic -> counted (resp i) = true ->
  pollErrorCount (tick i s) = S (pollErrorCount s) /\
  pollJobId (tick i s) = pollJobId s /\
  if (limit <=? S (pollErrorCount s))%nat
  then poller (tick i s) = None /\
       currentJob (tick i s) = failedJob (pollJobId s) stg det err
  else poller (tick i s) = Some Classic /\ currentJob (tick i s) = currentJob s.

Lemma classic_run_counted (inputs : list TickInput) :
  forall s, poller s = Some Classic -> all_resp counted inputs ->
  (pollErrorCount s < limit)%nat ->
  ((pollErrorCount s + length inputs < limit)%nat ->
     poller (run inputs s) = Some Classic /\
     currentJob (run inputs s) = currentJob s /\
     pollErrorCount (run inputs s) = (pollErrorCount s + length inputs)%nat /\
     count_events is_status_fetch (trace (run inputs s))
       = (count_events is_status_fetch (trace s) + length inputs)%nat) /\
  ((limit <= pollErrorCount s + length inputs)%nat ->
     poller (run inputs s) = None /\
     currentJob (run inputs s) = failedJob (pollJobId s) stg det err /\
     count_events is_status_fetch (trace (run inputs s))
       = (count_events is_status_fetch (trace s) + (limit - pollErrorCount s))%nat).
Proof.
  induction inputs as [|i rest IH]; intros s Hp Hall Hn.
  - simpl. split; [intros _; repeat split; solve [assumption|lia] | lia].
  - inversion Hall as [|? ? Hi Hrest]; subst.
    destruct (counted_tick i s Hp Hi) as (Hc & Hid & Hif).
    destruct (tick_counts Classic i s Hp) as (Hf & _).
    simpl run. simpl length.
    destruct (limit <=? S (pollErrorCount s))%nat eqn:E.
    + apply Nat.leb_le in E. destruct Hif as (Hstop & Hjob).
      split; [lia|]. intros _. rewrite run_idle by assumption.
      repeat split; try assumption. rewrite Hf. lia.
    + apply Nat.leb_gt in E. destruct Hif as (Hgo & Hjob).
      destruct (IH (tick i s) Hgo Hrest) as [IH1 IH2]; [lia|].
      rewrite Hc, Hjob, Hid, Hf in *. split; intros Hlen.
      * destruct IH1 as (A & B & C & D); [lia|]. repeat split; try assumption; lia.
      * destruct IH2 as (A & B & C); [lia|]. repeat split; try assumption. lia.
Qed.

End ClassicCounted.

(** C3 (amended).  A loop that reports a lost job does so at a fixed number of
    404 answers in a row counted from a zero error counter: the third in
    [startSmartPolling], the second in [startPolling].  Before that number the
    loop keeps polling and leaves the job as it was; from that number on it
    has stopped, and the job is shown as failed with the job-lost message. *)
Theorem C3_not_found_give_up (p : Path) (limit : nat) (s : App)
    (inputs : list TickInput) :
  give_up_limit p NotFound = Some limit ->
  poller s = Some p ->
  error_counter p s = 0%nat ->
  all_resp is_not_found inputs ->
  ((length inputs < limit)%nat ->
     poller (run inputs s) = Some p /\
     currentJob (run inputs s) = currentJob s) /\
  ((limit <= length inputs)%nat ->
     poller (run inputs s) = None /\
     dep_status (run inputs s) = Some "failed" /\
     job_error (run inputs s) = Some (job_lost_text p)).
Proof.
  intros Hl Hp Hc Hall. destruct p; simpl in Hl, Hc; inversion Hl; subst limit.
  - destruct (smart_run_404 inputs s Hp Hall) as [H1 H2]; [lia|].
    rewrite Hc in *. simpl in *. split; [exact H1|].
    intros Hlen. destruct (H2 Hlen) as (Hs & Hj & _).
    unfold dep_status, job_error. rewrite Hj. simpl. repeat split; assumption.
  - destruct (classic_run_counted is_not_found 2 _ _ _ classic_tick_404
                inputs s Hp Hall) as [H1 H2]; [lia|].
    rewrite Hc in *. simpl in *. split.
    + intros Hlen. destruct (H1 Hlen) as (A & B & _). split; assumption.
    + intros Hlen. destruct (H2 Hlen) as (Hs & Hj & _).
      unfold dep_status, job_error. rewrite Hj. simpl. repeat split; assumption.
Qed.

(** A job created from a URL: two 404 answers leave [startSmartPolling]
    polling, the third ends it with the job-lost message. *)
Lemma C3_not_found_give_up_witness :
  let nf := answer (Http 404 None) in
  poller smartJob = Some Smart /\
  error_counter Smart smartJob = 0%nat /\
  poller (run [nf; nf] smartJob) = Some Smart /\
  poller (run [nf; nf; nf] smartJob) = None /\
  dep_status (run [nf; nf; nf] smartJob) = Some "failed" /\
  job_error (run [nf; nf; nf] smartJob) = Some job_lost_smart.
Proof.
  intros nf.
  assert (Hall2 : all_resp is_not_found [nf; nf]) by (repeat constructor).
  assert (Hall3 : all_resp is_not_found [nf; nf; nf]) by (repeat constructor).
  split; [reflexivity|]. split; [reflexivity|]. split.
  - apply (C3_not_found_give_up Smart 3 smartJob [nf; nf]
             eq_refl eq_refl eq_refl Hall2). simpl. lia.
  - apply (C3_not_found_give_up Smart 3 smartJob [nf; nf; nf]
             eq_refl eq_refl eq_refl Hall3). simpl. lia.
Defined.

(** C3, as stated, fails in [startPolling]: the loop reports the job as lost
    at the second 404 answer, not at the third. *)
Lemma C3_startPolling_gives_up_at_second_404 :
  let nf := answer (Http 404 None) in
  poller uploadJob = Some Classic /\
  poller (run [nf] uploadJob) = Some Classic /\
  poller (run [nf; nf] uploadJob) = None /\
  job_stage (run [nf; nf] uploadJob) = Some "Job Lost" /\
  count_events is_status_fetch (trace (run [nf; nf; nf] uploadJob)) = 2%nat.
Proof. vm_compute. repeat split. Qed.



Lemma firing_times_S (base period : Z) (n : nat) :
  firing_times base period (S n)
  = base + period :: firing_times (base + period) period n.
Proof.
  unfold firing_times. simpl. f_equal; [lia|].
  rewrite <- seq_shift, map_map. apply map_ext. intros k. lia.
Qed.

(** C8.  In each of the three loops the status requests go out at the
    firings of an interval of 2000 ms: counted from the time the run starts
    at, the requests of a run are stamped 2000, 4000, 6000, ... ms, one per
    firing, for as long as the interval is live. *)
Theorem C8_status_fetch_every_2000_ms (p : Path) (inputs : list TickInput) :
  forall s, poller s = Some p ->
  interval_ms p = 2000 /\
  exists fired,
    (fired <= length inputs)%nat /\
    status_fetch_times (trace (run inputs s))
      = (status_fetch_times (trace s) ++ firing_times (now s) 2000 fired)%list /\
    (poller (run inputs s) = Some p -> fired = length inputs).
Proof.
  assert (Hms : interval_ms p = 2000) by (destruct p; reflexivity).
  induction inputs as [|i rest IH]; intros s Hp; (split; [exact Hms|]).
  - exists 0%nat. simpl. rewrite app_nil_r. repeat split; auto.
  - simpl run.
    destruct (tick_counts p i s Hp) as (_ & _ & Ht).
    destruct (tick_now p i s Hp) as [Hn _]. rewrite Hms in *.
    destruct (tick_poller p i s Hp) as [Hgo|Hstop].
    + destruct (IH (tick i s) Hgo) as (_ & n & Hle & Htimes & Hall).
      exists (S n). split; [simpl; lia|]. split.
      * rewrite Htimes, Ht, Hn, firing_times_S, <- app_assoc. reflexivity.
      * intros Hend. simpl. f_equal. apply Hall, Hend.
    + exists 1%nat. split; [simpl; lia|]. split.
      * rewrite (run_idle rest _ Hstop), Ht. unfold firing_times. simpl.
        do 2 f_equal.
      * rewrite (run_idle rest _ Hstop), Hstop. discriminate.
Qed.

(** Three firings of [startRenderPolling] on a job that keeps processing. *)
Lemma C8_status_fetch_every_2000_ms_witness :
  let going := answer (Http 200 (Some (body_of "processing" (1 # 2)))) in
  poller renderJob = Some Render /\
  status_fetch_times (trace (run [going; going; going] renderJob))
    = [2000; 4000; 6000].
Proof.
  intros going. split; [reflexivity|].
  destruct (C8_status_fetch_every_2000_ms Render [going; going; going] renderJob
              eq_refl) as (_ & fired & _ & Ht & Hall).
  rewrite Ht. rewrite (Hall eq_refl). reflexivity.
Defined.

(** C5 (amended).  In [startPolling], counted from a zero error counter, the
    loop answers 500, 502 and 503 by counting them: it keeps polling through
    the first two in a row, and at the third it stops, shows the job as
    failed at stage "Server Crashed", and sends no further status request, so
    that of four such answers only three are ever requested. *)
Theorem C5_server_errors_give_up_at_third (s : App) (inputs : list TickInput) :
  poller s = Some Classic ->
  pollErrorCount s = 0%nat ->
  all_resp is_5xx inputs ->
  ((length inputs < 3)%nat ->
     poller (run inputs s) = Some Classic /\
     currentJob (run inputs s) = currentJob s /\
     pollErrorCount (run inputs s) = length inputs) /\
  ((3 <= length inputs)%nat ->
     poller (run inputs s) = None /\
     currentJob (run inputs s)
       = failedJob (pollJobId s) "Server Crashed" "Out of memory" server_crashed_error /\
     count_events is_status_fetch (trace (run inputs s))
       = (count_events is_status_fetch (trace s) + 3)%nat).
Proof.
  intros Hp Hc Hall.
  destruct (classic_run_counted is_5xx 3 _ _ _ classic_tick_5xx inputs s Hp Hall)
    as [H1 H2]; [lia|].
  rewrite Hc in *. simpl in *. split.
  - intros Hlen. destruct (H1 Hlen) as (A & B & C & _). repeat split; assumption.
  - intros Hlen. destruct (H2 Hlen) as (A & B & C). repeat split; assumption.
Qed.

(** An uploaded job answered 503 four times: [startPolling] stops at the
    third answer and never asks for the fourth. *)
Lemma C5_server_errors_give_up_at_third_witness :
  let e503 := answer (Http 503 None) in
  poller uploadJob = Some Classic /\
  pollErrorCount uploadJob = 0%nat /\
  poller (run [e503; e503] uploadJob) = Some Classic /\
  poller (run [e503; e503; e503; e503] uploadJob) = None /\
  job_stage (run [e503; e503; e503; e503] uploadJob) = Some "Server Crashed" /\
  count_events is_status_fetch (trace (run [e503; e503; e503; e503] uploadJob))
    = 3%nat.
Proof.
  intros e503.
  assert (H2 : all_resp is_5xx [e503; e503]) by (repeat constructor).
  assert (H4 : all_resp is_5xx [e503; e503; e503; e503]) by (repeat constructor).
  split; [reflexivity|]. split; [reflexivity|]. split.
  - apply (C5_server_errors_give_up_at_third uploadJob [e503; e503]
             eq_refl eq_refl H2). simpl. lia.
  - destruct (C5_server_errors_give_up_at_third uploadJob
                [e503; e503; e503; e503] eq_refl eq_refl H4) as [_ H].
    destruct H as (A & B & C); [simpl; lia|].
    split; [exact A|]. split; [|exact C].
    unfold job_stage. rewrite B. reflexivity.
Defined.

(** C5, as stated, fails in [startSmartPolling]: four 503 answers in a row
    leave the loop polling, with the job still shown as processing. *)
Lemma C5_startSmartPolling_survives_four_503 :
  let e503 := answer (Http 503 None) in
  let e503json := answer (Http 503 (Some (mkJobData None None None (Some "Service Unavailable") None))) in
  poller smartJob = Some Smart /\
  poller (run [e503; e503; e503; e503] smartJob) = Some Smart /\
  dep_status (run [e503; e503; e503; e503] smartJob) = Some "processing" /\
  count_events is_status_fetch (trace (run [e503; e503; e503; e503] smartJob))
    = 4%nat /\
  poller (run [e503json; e503json; e503json; e503json] smartJob) = Some Smart.
Proof. vm_compute. repeat split. Qed.

Lemma classic_tick_transient (i : TickInput) (s : App) :
  poller s = Some Classic -> is_transient (resp i) = true ->
  pollErrorCount (tick i s) = S (pollErrorCount s) /\
  ((5 <= S (pollErrorCount s))%nat -> poller (tick i s) = None) /\
  (poller (tick i s) = None -> dep_status (tick i s) = Some "failed") /\
  ((S (pollErrorCount s) < 2)%nat -> poller (tick i s) = Some Classic).
Proof.
  intros Hp Ht. unfold is_transient in Ht.
  apply orb_true_iff in Ht. destruct Ht as [Ht|Ht];
    [apply orb_true_iff in Ht; destruct Ht as [Ht|Ht]|].
  - destruct (classic_tick_5xx i s Hp Ht) as (Hc & _ & Hif).
    destruct (3 <=? S (pollErrorCount s))%nat eqn:E;
      [apply Nat.leb_le in E|apply Nat.leb_gt in E]; destruct Hif as [A B];
      repeat split; try assumption; try lia; intros H; try congruence.
    unfold dep_status. rewrite B. reflexivity.
  - destruct (classic_tick_404 i s Hp Ht) as (Hc & _ & Hif).
    destruct (2 <=? S (pollErrorCount s))%nat eqn:E;
      [apply Nat.leb_le in E|apply Nat.leb_gt in E]; destruct Hif as [A B];
      repeat split; try assumption; try lia; intros H; try congruence.
    unfold dep_status. rewrite B. reflexivity.
  - destruct (classic_tick_network i s Hp Ht) as (Hc & _ & Hif).
    destruct (5 <=? S (pollErrorCount s))%nat eqn:E;
      [apply Nat.leb_le in E|apply Nat.leb_gt in E]; destruct Hif as [A B];
      repeat split; try assumption; try lia; intros H; try congruence.
    unfold dep_status. rewrite B. reflexivity.
Qed.

Lemma classic_run_transient (inputs : list TickInput) :
  forall s, poller s = Some Classic -> all_resp is_transient inputs ->
  ((pollErrorCount s + length inputs < 2)%nat ->
     poller (run inputs s) = Some Classic) /\
  ((1 <= length inputs)%nat -> (5 <= pollErrorCount s + length inputs)%nat ->
     poller (run inputs s) = None /\ dep_status (run inputs s) = Some "failed").
Proof.
  induction inputs as [|i rest IH]; intros s Hp Hall.
  - simpl. split; [intros _; assumption | lia].
  - inversion Hall as [|? ? Hi Hrest]; subst.
    destruct (classic_tick_transient i s Hp Hi) as (Hc & H5 & Hf & H2).
    simpl run. simpl length. split.
    + intros Hlen. destruct (IH (tick i s) (H2 ltac:(lia)) Hrest) as [IH1 _].
      apply IH1. lia.
    + intros _ Hlen. destruct (tick_poller Classic i s Hp) as [Hgo|Hstop].
      * destruct (IH (tick i s) Hgo Hrest) as [_ IH2].
        assert (~ (5 <= S (pollErrorCount s))%nat)
          by (intros H; apply H5 in H; congruence).
        apply IH2; lia.
      * rewrite run_idle by assumption. split; [assumption|apply Hf, Hstop].
Qed.

(** C4 (amended).  [startPolling] gives up after a bounded number of failed
    status requests in a row and then shows the job as failed: counted from
    a zero error counter, at the 3rd answer 500/502/503, at the 2nd answer
    404 or at the 5th network error when the failures are of one kind, and,
    when the kinds are mixed, not before the 2nd failure and at the latest at
    the 5th.  [startSmartPolling] counts 404 answers and gives up at the 3rd.
    Every such limit lies between 2 and 5. *)
Theorem C4_bounded_retries (p : Path) (kind : ErrorKind) (limit : nat) (s : App)
    (inputs mixed : list TickInput) :
  give_up_limit p kind = Some limit ->
  poller s = Some p ->
  error_counter p s = 0%nat ->
  all_resp (has_kind kind) inputs ->
  all_resp is_transient mixed ->
  (2 <= limit <= 5)%nat /\
  ((length inputs < limit)%nat -> poller (run inputs s) = Some p) /\
  ((limit <= length inputs)%nat ->
     poller (run inputs s) = None /\ dep_status (run inputs s) = Some "failed") /\
  (p = Classic ->
     ((length mixed < 2)%nat -> poller (run mixed s) = Some Classic) /\
     ((5 <= length mixed)%nat ->
        poller (run mixed s) = None /\ dep_status (run mixed s) = Some "failed")).
Proof.
  intros Hl Hp Hc Hall Hmixed.
  assert (Hmix : p = Classic ->
     ((length mixed < 2)%nat -> poller (run mixed s) = Some Classic) /\
     ((5 <= length mixed)%nat ->
        poller (run mixed s) = None /\ dep_status (run mixed s) = Some "failed")).
  { intros ->. simpl in Hc.
    destruct (classic_run_transient mixed s Hp Hmixed) as [M1 M2].
    rewrite Hc in *. split; intros H; [apply M1|apply M2]; simpl; lia. }
  destruct p, kind; simpl in Hl; inversion Hl; subst limit; simpl in Hc, Hall.
  - destruct (smart_run_404 inputs s Hp Hall) as [H1 H2]; [lia|].
    rewrite Hc in *. simpl in *. repeat split; try lia.
    + apply H1; assumption.
    + apply H2; assumption.
    + destruct H2 as (_ & Hj & _); [assumption|].
      unfold dep_status. rewrite Hj. reflexivity.
    + apply Hmix; assumption.
    + apply Hmix; assumption.
    + apply Hmix; assumption.
  - destruct (classic_run_counted is_5xx 3 _ _ _ classic_tick_5xx inputs s Hp Hall)
      as [H1 H2]; [lia|].
    rewrite Hc in *. simpl in *. repeat split; try lia.
    + apply H1; assumption.
    + apply H2; assumption.
    + destruct H2 as (_ & Hj & _); [assumption|].
      unfold dep_status. rewrite Hj. reflexivity.
    + apply Hmix; assumption.
    + apply Hmix; assumption.
    + apply Hmix; assumption.
  - destruct (classic_run_counted is_not_found 2 _ _ _ classic_tick_404 inputs s Hp Hall)
      as [H1 H2]; [lia|].
    rewrite Hc in *. simpl in *. repeat split; try lia.
    + apply H1; assumption.
    + apply H2; assumption.
    + destruct H2 as (_ & Hj & _); [assumption|].
      unfold dep_status. rewrite Hj. reflexivity.
    + apply Hmix; assumption.
    + apply Hmix; assumption.
    + apply Hmix; assumption.
  - destruct (classic_run_counted is_network_error 5 _ _ _ classic_tick_network
                inputs s Hp Hall) as [H1 H2]; [lia|].
    rewrite Hc in *. simpl in *. repeat split; try lia.
    + apply H1; assumption.
    + apply H2; assumption.
    + destruct H2 as (_ & Hj & _); [assumption|].
      unfold dep_status. rewrite Hj. reflexivity.
    + apply Hmix; assumption.
    + apply Hmix; assumption.
    + apply Hmix; assumption.
Qed.

(** An uploaded job: four network errors leave [startPolling] polling, the
    fifth ends it, and so does a mixed run of five failures. *)
Lemma C4_bounded_retries_witness :
  let ne := answer NetworkError in
  let nf := answer (Http 404 None) in
  let e503 := answer (Http 503 None) in
  poller uploadJob = Some Classic /\
  error_counter Classic uploadJob = 0%nat /\
  poller (run [ne; ne; ne; ne] uploadJob) = Some Classic /\
  poller (run [ne; ne; ne; ne; ne] uploadJob) = None /\
  dep_status (run [ne; ne; ne; ne; ne] uploadJob) = Some "failed" /\
  poller (run [e503; nf; ne; e503; nf] uploadJob) = None.
Proof.
  intros ne nf e503.
  assert (H4 : all_resp (has_kind Network) [ne; ne; ne; ne]) by (repeat constructor).
  assert (H5 : all_resp (has_kind Network) [ne; ne; ne; ne; ne]) by (repeat constructor).
  assert (Hm : all_resp is_transient [e503; nf; ne; e503; nf]) by (repeat constructor).
  split; [reflexivity|]. split; [reflexivity|]. split.
  - apply (C4_bounded_retries Classic Network 5 uploadJob [ne; ne; ne; ne]
             [e503; nf; ne; e503; nf] eq_refl eq_refl eq_refl H4 Hm). simpl. lia.
  - destruct (C4_bounded_retries Classic Network 5 uploadJob [ne; ne; ne; ne; ne]
                [e503; nf; ne; e503; nf] eq_refl eq_refl eq_refl H5 Hm)
      as (_ & _ & Hstop & Hmixed).
    destruct Hstop as [A B]; [simpl; lia|].
    destruct (Hmixed eq_refl) as [_ M]. destruct M as [C _]; [simpl; lia|].
    repeat split; assumption.
Defined.

(** C4, as stated, fails: [startPolling] gives up at the second 404 answer,
    below the stated range, and the two other loops retry without bound, as
    [startRenderPolling] does over network errors and [startSmartPolling]
    over 503 answers. *)
Lemma C4_limits_outside_three_to_five :
  let ne := answer NetworkError in
  let nf := answer (Http 404 None) in
  let e503 := answer (Http 503 None) in
  poller (run [nf; nf] uploadJob) = None /\
  poller renderJob = Some Render /\
  poller (run [ne; ne; ne; ne; ne; ne] renderJob) = Some Render /\
  count_events is_status_fetch (trace (run [ne; ne; ne; ne; ne; ne] renderJob)) = 6%nat /\
  poller (run [e503; e503; e503; e503; e503; e503] smartJob) = Some Smart /\
  dep_status (run [e503; e503; e503; e503; e503; e503] smartJob) = Some "processing".
Proof. vm_compute. repeat split. Qed.

Lemma failed_fetch_step (p : Path) (limit : nat) (r : Response) (k : Control) :
  give_up_floor p = Some limit ->
  failed_fetch p r = true ->
  let c := match p with Smart => k_notFound k | _ => k_errors k end in
  let k' := control_step p r k in
  let c' := match p with Smart => k_notFound k' | _ => k_errors k' end in
  (c' <= S c)%nat /\ ((S c < limit)%nat -> k_poller k' = k_poller k).
Proof.
  unfold failed_fetch, delivered, control_step.
  destruct p; intros Hl Hf; inversion Hl; subst limit; cbv zeta;
    destruct r as [|code body];
    repeat match goal with
           | H : context [if ?c then _ else _] |- _ => destruct c eqn:?
           | |- context [if ?c then _ else _] => destruct c eqn:?
           | H : context [match ?b with Some _ => _ | None => _ end] |- _ =>
             destruct b
           end;
    try discriminate; subst; cbn;
    (split; [lia|]); intros Hlt; try reflexivity;
    repeat match goal with
           | H : (_ <=? _)%nat = true |- _ => apply Nat.leb_le in H
           end; lia.
Qed.

Lemma error_counter_control (p : Path) (limit : nat) (s : App) :
  give_up_floor p = Some limit ->
  error_counter p s
  = match p with
    | Smart => k_notFound (control s)
    | _ => k_errors (control s)
    end.
Proof. destruct p; simpl; intros H; try reflexivity. discriminate. Qed.

Lemma failures_below_floor (p : Path) (limit : nat) (rest : list TickInput) :
  give_up_floor p = Some limit ->
  forall s, poller s = Some p ->
  all_resp (failed_fetch p) rest ->
  (error_counter p s + length rest < limit)%nat ->
  poller (run rest s) = Some p.
Proof.
  intros Hl. induction rest as [|i rest IH]; intros s Hp Hall Hlen.
  - assumption.
  - inversion Hall as [|? ? Hi Hrest]; subst. simpl in *.
    pose proof (failed_fetch_step p limit (resp i) (control s) Hl Hi) as [Hc Hk].
    rewrite <- (control_tick p i s Hp) in Hc, Hk.
    rewrite <- !(error_counter_control p limit) in * by assumption.
    apply IH; [|assumption|lia].
    change (k_poller (control (tick i s)) = Some p).
    rewrite Hk by lia. exact Hp.
Qed.

Lemma delivered_resets (p : Path) (limit : nat) (r : Response) (d : JobData)
    (k : Control) :
  give_up_floor p = Some limit ->
  delivered p r = Some d ->
  match p with
  | Smart => k_notFound (control_step p r k)
  | _ => k_errors (control_step p r k)
  end = 0%nat.
Proof.
  unfold delivered.
  destruct p; simpl; intros Hl Hd; inversion Hl; subst limit.
  - destruct r as [|code body]; [discriminate|]. simpl.
    destruct (code =? 404); [discriminate|]. subst body.
    destruct (smart_stops d); reflexivity.
  - destruct r as [|code body]; [discriminate|]. simpl.
    destruct (is_server_error code); [discriminate|].
    destruct (code =? 404); [discriminate|]. subst body.
    destruct (classic_stops d); reflexivity.
Qed.

(** C9.  In the two loops that count errors, a status request that delivers
    a body puts the error counter back to zero; so if the loop is still live
    after it, fewer failed requests than the loop's smallest give-up count
    (3 in [startSmartPolling], 2 in [startPolling]) cannot stop it, whatever
    failures came before the successful request. *)
Theorem C9_success_resets_error_count (p : Path) (limit : nat) (s : App)
    (i : TickInput) (d : JobData) (rest : list TickInput) :
  give_up_floor p = Some limit ->
  poller s = Some p ->
  delivered p (resp i) = Some d ->
  error_counter p (tick i s) = 0%nat /\
  (poller (tick i s) = Some p ->
   all_resp (failed_fetch p) rest ->
   (length rest < limit)%nat ->
   poller (run (i :: rest) s) = Some p).
Proof.
  intros Hl Hp Hd.
  assert (H0 : error_counter p (tick i s) = 0%nat).
  { rewrite (error_counter_control p limit) by assumption.
    rewrite (control_tick p i s Hp).
    apply (delivered_resets p limit (resp i) d); assumption. }
  split; [exact H0|].
  intros Hgo Hall Hlen. simpl.
  apply (failures_below_floor p limit rest Hl); try assumption.
  rewrite H0. simpl. exact Hlen.
Qed.

(** Two 404 answers, a body, two 404 answers: [startSmartPolling] is still
    polling, though four of the five requests failed. *)
Lemma C9_success_resets_error_count_witness :
  let nf := answer (Http 404 None) in
  let going := answer (Http 200 (Some (body_of "processing" (1 # 2)))) in
  poller (run [nf; nf] smartJob) = Some Smart /\
  error_counter Smart (run [nf; nf] smartJob) = 2%nat /\
  error_counter Smart (tick going (run [nf; nf] smartJob)) = 0%nat /\
  poller (run (going :: [nf; nf]) (run [nf; nf] smartJob)) = Some Smart.
Proof.
  intros nf going.
  assert (Hall : all_resp (failed_fetch Smart) [nf; nf]) by (repeat constructor).
  destruct (C9_success_resets_error_count Smart 3 (run [nf; nf] smartJob) going
              (body_of "processing" (1 # 2)) [nf; nf] eq_refl eq_refl eq_refl)
    as [A B].
  split; [reflexivity|]. split; [reflexivity|]. split; [exact A|].
  apply B; [reflexivity | exact Hall | simpl; lia].
Defined.

(** ** The saved job *)

Lemma persist_effect_stored (s : App) (x : Stored) :
  storedJob (persist_effect s) = Some x ->
  storedJob s = Some x \/
  (dep_status s = Some "processing" /\ x = SavedJob (dep_id s) (Some (now s))).
Proof.
  unfold persist_effect, dep_status, dep_id.
  destruct (currentJob s) as [j|]; [|auto].
  destruct (truthy (id j)) eqn:Hid; simpl; [|auto].
  destruct (is_str (status j) "processing") eqn:Hst; [|auto].
  apply is_str_true in Hst.
  destruct (id j) as [jid|]; [|discriminate]. simpl.
  intros H. inversion H. right. split; [assumption|reflexivity].
Qed.

Lemma tick_stored (p : Path) (i : TickInput) (s : App) (x : Stored) :
  poller s = Some p ->
  storedJob (tick i s) = Some x ->
  storedJob s = Some x \/ dep_status (tick i s) = Some "processing".
Proof.
  intros Hp. unfold tick. rewrite Hp.
  set (s1 := advance (interval_ms p) s).
  destruct (callback_now p i s1) as (_ & _ & Hst).
  unfold react_commit.
  destruct (opt_str_eqb (dep_id s1) (dep_id (callback p i s1))
            && opt_str_eqb (dep_status s1) (dep_status (callback p i s1))).
  - intros H. left. destruct Hst as [E|E]; rewrite E in H; [exact H|discriminate].
  - intros H. apply persist_effect_stored in H. destruct H as [H|[H _]].
    + left. destruct Hst as [E|E]; rewrite E in H; [exact H|discriminate].
    + right. unfold dep_status in *.
      destruct (persist_effect_fields (callback p i s1)) as (Hj & _).
      rewrite Hj. exact H.
Qed.

(** C10.  The only write of the saved job is the effect on [currentJob],
    and it writes only when the job's status is [processing]: after the
    effect, and after any firing of a loop, a saved record is either the one
    that was there before or belongs to a job whose status is [processing].
    On page load a saved record is resumed, with [startSmartPolling], exactly
    when it is less than 30 minutes old; a record of 30 minutes or more is
    removed, no loop is started and no request is sent; and the effect
    starts a loop for no other content of the entry. *)
Theorem C10_persist_while_processing_resume_within_30_min (s : App) :
  (forall x, storedJob (persist_effect s) = Some x ->
     storedJob s = Some x \/ dep_status s = Some "processing") /\
  (forall p i x, poller s = Some p -> storedJob (tick i s) = Some x ->
     storedJob s = Some x \/ dep_status (tick i s) = Some "processing") /\
  (forall sid t,
     currentJob s = None -> poller s = None ->
     storedJob s = Some (SavedJob sid (Some t)) ->
     (now s - t < 30 * 60 * 1000 ->
        poller (resume_effect s) = Some Smart /\
        dep_status (resume_effect s) = Some "resuming" /\
        dep_id (resume_effect s) = sid) /\
     (30 * 60 * 1000 <= now s - t ->
        poller (resume_effect s) = None /\
        storedJob (resume_effect s) = None /\
        currentJob (resume_effect s) = None /\
        count_events is_status_fetch (trace (resume_effect s))
          = count_events is_status_fetch (trace s))) /\
  (poller s = None -> poller (resume_effect s) = Some Smart ->
   exists sid t,
     storedJob s = Some (SavedJob sid (Some t)) /\ now s - t < 30 * 60 * 1000).
Proof.
  split; [|split; [|split]].
  - intros x H. apply persist_effect_stored in H. tauto.
  - intros p i x. apply tick_stored.
  - intros sid t Hj Hp Hs. unfold resume_effect. rewrite Hs, Hj.
    change resume_window_ms with (30 * 60 * 1000).
    destruct (now s - t <? 30 * 60 * 1000) eqn:E;
      [apply Z.ltb_lt in E|apply Z.ltb_ge in E]; split; intros H; try lia.
    + simpl. repeat split.
    + simpl. rewrite Hp, Hj. repeat split.
      unfold count_events. rewrite filter_app, length_app. simpl. lia.
  - intros Hp. unfold resume_effect.
    destruct (storedJob s) as [[| |sid [t|]]|]; destruct (currentJob s);
      simpl; try (rewrite Hp; discriminate).
    change resume_window_ms with (30 * 60 * 1000).
    destruct (now s - t <? 30 * 60 * 1000) eqn:E;
      simpl; try (rewrite Hp; discriminate).
    intros _. exists sid, t. split; [reflexivity|]. apply Z.ltb_lt, E.
Qed.

(** A record saved at time 1000, found 29 and 30 minutes later: the first is
    resumed, and saved again once it is read as processing; the second is
    removed. *)
Lemma C10_persist_while_processing_resume_within_30_min_witness :
  let fresh := mkApp None PInput [] None (Some (SavedJob (Some "job-1") (Some 1000)))
                     None "" 0 0 (1000 + 29 * 60 * 1000) [] in
  let stale := mkApp None PInput [] None (Some (SavedJob (Some "job-1") (Some 1000)))
                     None "" 0 0 (1000 + 30 * 60 * 1000) [] in
  poller (resume_effect fresh) = Some Smart /\
  dep_status (resume_effect fresh) = Some "resuming" /\
  poller (resume_effect stale) = None /\
  storedJob (resume_effect stale) = None /\
  storedJob (tick (answer (Http 200 (Some (body_of "processing" (1 # 4)))))
                  (resume_effect fresh))
    = Some (SavedJob (Some "job-1") (Some (1000 + 29 * 60 * 1000 + 2000))).
Proof.
  intros fresh stale.
  destruct (C10_persist_while_processing_resume_within_30_min fresh)
    as (_ & _ & Hf & _).
  destruct (Hf (Some "job-1") 1000 eq_refl eq_refl eq_refl) as [Hyoung _].
  destruct Hyoung as (A & B & _); [simpl; lia|].
  destruct (C10_persist_while_processing_resume_within_30_min stale)
    as (_ & _ & Hs & _).
  destruct (Hs (Some "job-1") 1000 eq_refl eq_refl eq_refl) as [_ Hold].
  destruct Hold as (C & D & _); [simpl; lia|].
  repeat split; assumption.
Defined.

(** ** What a firing records in [currentJob] *)

Lemma callback_job (p : Path) (i : TickInput) (s : App) :
  match delivered p (resp i) with
  | Some d =>
    dep_status (callback p i s) = d_status d /\
    job_progress (callback p i s) = d_progress d /\
    dep_id (callback p i s)
      = match p with Classic => Some (pollJobId s) | _ => dep_id s end /\
    currentJob (callback p i s) <> None
  | None =>
    currentJob (callback p i s) = currentJob s \/
    (poller (callback p i s) = None /\ dep_status (callback p i s) = Some "failed"
     /\ dep_id (callback p i s)
        = match p with Classic => Some (pollJobId s) | _ => dep_id s end)
  end.
Proof.
  destruct s as [cj ph sr jr st po pj nf pe nw tr].
  destruct i as [r c rs].
  unfold delivered.
  destruct p; simpl; unfold smart_callback, render_callback, classic_callback,
    classic_catch, dep_status, job_progress, dep_id; simpl.
  - destruct r as [|code body]; [callback_leaf|].
    destruct (code =? 404).
    + destruct nf as [|[|[|nf]]]; simpl; destruct cj; callback_leaf.
    + destruct body as [d|]; [|callback_leaf].
      destruct (is_str (d_status d) "processing").
      * destruct c; [|destruct cj; callback_leaf].
        destruct rs as [|[sc [[|cl cls]|]]]; destruct cj; callback_leaf.
      * destruct (is_str (d_status d) "completed").
        { destruct rs as [|[sc [[|cl cls]|]]]; destruct cj; callback_leaf. }
        destruct (is_str (d_status d) "failed"); destruct cj; callback_leaf.
  - destruct r as [|code [d|]]; try (callback_leaf).
    destruct (is_str (d_status d) "completed").
    + destruct rs as [|[sc [[|cl cls]|]]]; destruct cj; callback_leaf.
    + destruct (is_str (d_status d) "failed"); destruct cj; callback_leaf.
  - destruct r as [|code body].
    + destruct pe as [|[|[|[|[|pe]]]]]; callback_leaf.
    + destruct (is_server_error code).
      * destruct pe as [|[|[|pe]]]; callback_leaf.
      * destruct (code =? 404).
        { destruct pe as [|[|pe]]; callback_leaf. }
        destruct body as [d|]; [|callback_leaf].
        destruct (is_str (d_status d) "completed").
        { destruct rs; callback_leaf. }
        destruct (is_str (d_status d) "failed" || is_str (d_status d) "cancelled");
          callback_leaf.
Qed.

Lemma tick_job (p : Path) (i : TickInput) (s : App) :
  poller s = Some p ->
  match delivered p (resp i) with
  | Some d =>
    dep_status (tick i s) = d_status d /\
    job_progress (tick i s) = d_progress d /\
    dep_id (tick i s)
      = match p with Classic => Some (pollJobId s) | _ => dep_id s end /\
    currentJob (tick i s) <> None
  | None =>
    currentJob (tick i s) = currentJob s \/
    (poller (tick i s) = None /\ dep_status (tick i s) = Some "failed"
     /\ dep_id (tick i s)
        = match p with Classic => Some (pollJobId s) | _ => dep_id s end)
  end.
Proof.
  intros Hp. unfold tick. rewrite Hp.
  set (s1 := advance (interval_ms p) s).
  destruct (react_commit_fields s1 (callback p i s1)) as (Hj & _ & Hpo & _).
  unfold dep_status, job_progress, dep_id. rewrite Hj, Hpo.
  exact (callback_job p i s1).
Qed.

(** ** Progress while processing *)









(** ** Statuses *)


Lemma delivered_control (p : Path) (r : Response) (d : JobData) (k : Control) :
  delivered p r = Some d ->
  k_poller (control_step p r k)
  = if stop_status p (d_status d) then None else k_poller k.
Proof.
  unfold delivered, control_step, stop_status, smart_stops, render_stops,
    classic_stops.
  destruct p, r as [|code body]; try discriminate.
  - destruct (code =? 404); [discriminate|]. intros ->.
    destruct (is_str (d_status d) "processing") eqn:E.
    + apply is_str_true in E. rewrite E. reflexivity.
    + simpl. destruct (is_str (d_status d) "completed" || is_str (d_status d) "failed");
        reflexivity.
  - intros ->.
    destruct (is_str (d_status d) "completed" || is_str (d_status d) "failed");
      reflexivity.
  - destruct (is_server_error code); [discriminate|].
    destruct (code =? 404); [discriminate|]. intros ->.
    destruct (is_str (d_status d) "completed" || is_str (d_status d) "failed"
              || is_str (d_status d) "cancelled"); reflexivity.
Qed.






(** ** Cancellation *)











(** * Further properties of the polling client *)

(** ** 404 answers and network errors in [startSmartPolling] *)

Lemma smart_tick_network (i : TickInput) (s : App) :
  poller s = Some Smart -> is_network_error (resp i) = true ->
  poller (tick i s) = Some Smart /\
  notFoundCount (tick i s) = notFoundCount s /\
  currentJob (tick i s) = currentJob s.
Proof.
  intros Hp Hr.
  destruct (resp i) as [|code body] eqn:Er; simpl in Hr; [|discriminate].
  pose proof (control_tick Smart i s Hp) as Hk. rewrite Er in Hk. simpl in Hk.
  pose proof (tick_job Smart i s Hp) as Hj. rewrite Er in Hj. simpl in Hj.
  assert (Hpo : poller (tick i s) = Some Smart).
  { apply (f_equal k_poller) in Hk. simpl in Hk. congruence. }
  repeat split; [exact Hpo | |].
  - apply (f_equal k_notFound) in Hk. exact Hk.
  - destruct Hj as [Hj|(Hj & _)]; [exact Hj|congruence].
Qed.

Lemma smart_run_404_offline (inputs : list TickInput) :
  forall s, poller s = Some Smart ->
  all_resp is_not_found_or_offline inputs ->
  (notFoundCount s < 3)%nat ->
  ((notFoundCount s + count_resp is_not_found inputs < 3)%nat ->
     poller (run inputs s) = Some Smart /\
     currentJob (run inputs s) = currentJob s) /\
  ((3 <= notFoundCount s + count_resp is_not_found inputs)%nat ->
     poller (run inputs s) = None /\
     currentJob (run inputs s)
       = with_status_error "failed" job_lost_smart (currentJob s)).
Proof.
  induction inputs as [|i rest IH]; intros s Hp Hall Hn.
  - unfold count_resp. simpl. split; [intros _; split; [assumption|reflexivity] | lia].
  - inversion Hall as [|? ? Hi Hrest]; subst.
    unfold count_resp in *. simpl run. simpl filter.
    unfold is_not_found_or_offline in Hi.
    destruct (is_not_found (resp i)) eqn:E404; simpl length.
    + destruct (smart_tick_404 i s Hp E404) as (Hc & _ & Hif).
      destruct (3 <=? S (notFoundCount s))%nat eqn:E.
      * apply Nat.leb_le in E. destruct Hif as (Hstop & Hjob & _).
        split; [lia|]. intros _. rewrite run_idle by assumption.
        split; assumption.
      * apply Nat.leb_gt in E. destruct Hif as (Hgo & Hjob).
        destruct (IH (tick i s) Hgo Hrest) as [IH1 IH2]; [lia|].
        rewrite Hc, Hjob in *. split; intros Hlen; [apply IH1|apply IH2]; lia.
    + simpl in Hi. destruct (smart_tick_network i s Hp Hi) as (Hgo & Hc & Hjob).
      destruct (IH (tick i s) Hgo Hrest) as [IH1 IH2]; [lia|].
      rewrite Hc, Hjob in *. split; intros Hlen; [apply IH1|apply IH2]; lia.
Qed.

(** X1.  In [startSmartPolling] a request that fails on the network neither
    counts as a 404 nor puts the 404 counter back to zero: over a run of 404
    answers and network errors, counted from zero, the loop reports the job
    as lost exactly when the run holds three 404 answers, in a row or not. *)
Theorem smart_not_found_counts_across_network_errors (s : App)
    (inputs : list TickInput) :
  poller s = Some Smart ->
  notFoundCount s = 0%nat ->
  all_resp is_not_found_or_offline inputs ->
  (poller (run inputs s) = None <-> (3 <= count_resp is_not_found inputs)%nat) /\
  (poller (run inputs s) = None ->
   dep_status (run inputs s) = Some "failed" /\
   job_error (run inputs s) = Some job_lost_smart).
Proof.
  intros Hp Hc Hall.
  destruct (smart_run_404_offline inputs s Hp Hall) as [H1 H2]; [lia|].
  rewrite Hc in *. simpl in *.
  assert (Hiff : poller (run inputs s) = None
                 <-> (3 <= count_resp is_not_found inputs)%nat).
  { split.
    - intros Hstop.
      destruct (Nat.lt_ge_cases (count_resp is_not_found inputs) 3) as [Hlt|Hge];
        [|exact Hge].
      destruct (H1 Hlt) as [Hgo _]. congruence.
    - intros Hge. apply H2, Hge. }
  split; [exact Hiff|].
  intros Hstop. apply Hiff in Hstop. destruct (H2 Hstop) as [_ Hj].
  unfold dep_status, job_error. rewrite Hj. split; reflexivity.
Qed.

(** A 404, a network error, a 404, a network error, a 404: the job is lost. *)
Lemma smart_not_found_counts_across_network_errors_witness :
  let nf := answer (Http 404 None) in
  let ne := answer NetworkError in
  poller smartJob = Some Smart /\
  poller (run [nf; ne; nf; ne; nf] smartJob) = None /\
  job_error (run [nf; ne; nf; ne; nf] smartJob) = Some job_lost_smart /\
  (poller (run [nf; ne; ne; ne; nf] smartJob) = None -> False).
Proof.
  intros nf ne.
  assert (H1 : all_resp is_not_found_or_offline [nf; ne; nf; ne; nf])
    by (repeat constructor).
  assert (H2 : all_resp is_not_found_or_offline [nf; ne; ne; ne; nf])
    by (repeat constructor).
  destruct (smart_not_found_counts_across_network_errors smartJob
              [nf; ne; nf; ne; nf] eq_refl eq_refl H1) as [[_ A] B].
  destruct (smart_not_found_counts_across_network_errors smartJob
              [nf; ne; ne; ne; nf] eq_refl eq_refl H2) as [[C _] _].
  assert (Hstop : poller (run [nf; ne; nf; ne; nf] smartJob) = None)
    by (apply A; unfold count_resp; simpl; lia).
  split; [reflexivity|]. split; [exact Hstop|]. split; [apply B, Hstop|].
  intros H. apply C in H. unfold count_resp in H. simpl in H. lia.
Defined.

(** ** When the loops go on *)

Lemma tick_stops_loop (p : Path) (i : TickInput) (s : App) :
  poller s = Some p -> stops_loop p i = true -> poller (tick i s) = None.
Proof.
  intros Hp Hs. unfold stops_loop in Hs.
  destruct (delivered p (resp i)) as [d|] eqn:Hd; [|discriminate].
  pose proof (control_tick p i s Hp) as Hk.
  apply (f_equal k_poller) in Hk. simpl in Hk.
  rewrite (delivered_control p (resp i) d _ Hd), Hs in Hk. exact Hk.
Qed.

Lemma render_tick_goes_on (i : TickInput) (s : App) :
  poller s = Some Render -> stops_loop Render i = false ->
  poller (tick i s) = Some Render.
Proof.
  intros Hp Hs. unfold stops_loop in Hs.
  pose proof (control_tick Render i s Hp) as Hk.
  apply (f_equal k_poller) in Hk.
  change (k_poller (control (tick i s))) with (poller (tick i s)) in Hk.
  rewrite Hk.
  destruct (delivered Render (resp i)) as [d|] eqn:Hd.
  - rewrite (delivered_control Render (resp i) d _ Hd), Hs. exact Hp.
  - unfold delivered in Hd. destruct (resp i) as [|code body]; [exact Hp|].
    subst body. exact Hp.
Qed.

(** X2.  [startRenderPolling] has no give-up path: whatever the answers are
    (network errors, error statuses, bodies that do not parse, bodies with
    any other status), the loop is over after a run exactly when one of the
    answers delivered a body with status completed or failed. *)
Theorem render_polling_stops_only_on_completed_or_failed
    (inputs : list TickInput) :
  forall s, poller s = Some Render ->
  (poller (run inputs s) = None <-> existsb (stops_loop Render) inputs = true).
Proof.
  induction inputs as [|i rest IH]; intros s Hp.
  - simpl. rewrite Hp. split; discriminate.
  - simpl. destruct (stops_loop Render i) eqn:Hs; simpl.
    + rewrite run_idle by (apply (tick_stops_loop Render); assumption).
      split; [reflexivity|]. intros _. apply (tick_stops_loop Render); assumption.
    + apply IH, render_tick_goes_on; assumption.
Qed.

(** Forty answers that are network errors, 404s, 500s and unreadable bodies
    leave [startRenderPolling] polling; a failed body ends it. *)
Lemma render_polling_stops_only_on_completed_or_failed_witness :
  let bad := [answer NetworkError; answer (Http 404 None);
              answer (Http 500 None); answer (Http 200 None)] in
  let many := (bad ++ bad ++ bad ++ bad ++ bad ++ bad ++ bad ++ bad ++ bad ++ bad)%list in
  let failed := answer (Http 200 (Some (body_of "failed" 0))) in
  poller renderJob = Some Render /\
  (poller (run many renderJob) = None -> False) /\
  poller (run (many ++ [failed]) renderJob) = None.
Proof.
  intros bad many failed.
  destruct (render_polling_stops_only_on_completed_or_failed many renderJob
              eq_refl) as [A _].
  destruct (render_polling_stops_only_on_completed_or_failed (many ++ [failed])
              renderJob eq_refl) as [_ B].
  split; [reflexivity|]. split.
  - intros H. apply A in H. vm_compute in H. discriminate.
  - apply B. vm_compute. reflexivity.
Defined.

Lemma classic_tick_unreadable (i : TickInput) (s : App) :
  poller s = Some Classic -> is_unreadable (resp i) = true ->
  poller (tick i s) = Some Classic /\
  pollErrorCount (tick i s) = 1%nat /\
  currentJob (tick i s) = currentJob s.
Proof.
  intros Hp Hr.
  destruct (resp i) as [|code [d|]] eqn:Er; simpl in Hr; try discriminate.
  apply andb_true_iff in Hr. destruct Hr as [H5 H4].
  apply negb_true_iff in H5. apply negb_true_iff in H4.
  pose proof (control_tick Classic i s Hp) as Hk. rewrite Er in Hk.
  simpl in Hk. rewrite H5, H4 in Hk.
  pose proof (tick_job Classic i s Hp) as Hj. rewrite Er in Hj.
  simpl in Hj. rewrite H5, H4 in Hj.
  assert (Hpo : poller (tick i s) = Some Classic).
  { apply (f_equal k_poller) in Hk. simpl in Hk. congruence. }
  repeat split; [exact Hpo | |].
  - apply (f_equal k_errors) in Hk. exact Hk.
  - destruct Hj as [Hj|(Hj & _)]; [exact Hj|congruence].
Qed.

(** X3.  The error counter of [startPolling] is put back to zero before the
    body is parsed, so an answer whose status code is none of 500, 502, 503
    and 404 and whose body is not JSON counts as the first error every
    time: over any run of such answers the loop never gives up, leaves the
    job as it was, and its counter reads 1. *)
Theorem classic_polling_never_gives_up_on_unreadable_bodies
    (inputs : list TickInput) :
  forall s, poller s = Some Classic ->
  all_resp is_unreadable inputs ->
  poller (run inputs s) = Some Classic /\
  currentJob (run inputs s) = currentJob s /\
  (inputs <> [] -> pollErrorCount (run inputs s) = 1%nat).
Proof.
  induction inputs as [|i rest IH]; intros s Hp Hall.
  - simpl. repeat split; [assumption|]. intros H. congruence.
  - inversion Hall as [|? ? Hi Hrest]; subst.
    destruct (classic_tick_unreadable i s Hp Hi) as (Hgo & Hc & Hj).
    destruct (IH (tick i s) Hgo Hrest) as (A & B & C).
    simpl. repeat split; [exact A|congruence|].
    intros _. destruct rest as [|i2 rest]; [exact Hc|].
    apply C. discriminate.
Qed.

(** An uploaded job whose server answers 504 with an HTML page, ten times,
    after four network errors: the counter never reaches five. *)
Lemma classic_polling_never_gives_up_on_unreadable_bodies_witness :
  let html := answer (Http 504 None) in
  let ne := answer NetworkError in
  let s := run [ne; ne; ne; ne] uploadJob in
  let run10 := [html; html; html; html; html; html; html; html; html; html] in
  poller s = Some Classic /\
  pollErrorCount s = 4%nat /\
  poller (run run10 s) = Some Classic /\
  pollErrorCount (run run10 s) = 1%nat /\
  dep_status (run run10 s) = Some "processing".
Proof.
  intros html ne s run10.
  assert (Hall : all_resp is_unreadable run10) by (repeat constructor).
  destruct (classic_polling_never_gives_up_on_unreadable_bodies run10 s
              eq_refl Hall) as (A & B & C).
  split; [reflexivity|]. split; [reflexivity|]. split; [exact A|].
  split; [apply C; discriminate|].
  unfold dep_status. rewrite B. reflexivity.
Defined.

(** X4.  [startPolling] keeps one counter for all kinds of failure and
    tests it against the limit of the kind that failed last.  So once any
    failure has been counted, a single 404 answer ends the loop with "Job
    Lost", and once two have been counted, a single 500, 502 or 503 ends it
    with "Server Crashed". *)
Theorem classic_last_failure_decides (s : App) (i : TickInput) :
  poller s = Some Classic ->
  ((1 <= pollErrorCount s)%nat -> is_not_found (resp i) = true ->
     poller (tick i s) = None /\ job_stage (tick i s) = Some "Job Lost") /\
  ((2 <= pollErrorCount s)%nat -> is_5xx (resp i) = true ->
     poller (tick i s) = None /\ job_stage (tick i s) = Some "Server Crashed") /\
  ((pollErrorCount s < 4)%nat -> is_network_error (resp i) = true ->
     poller (tick i s) = Some Classic).
Proof.
  intros Hp. split; [|split]; intros Hc Hr.
  - destruct (classic_tick_404 i s Hp Hr) as (_ & _ & Hif).
    destruct (2 <=? S (pollErrorCount s))%nat eqn:E;
      [|apply Nat.leb_gt in E; lia].
    destruct Hif as [A B]. split; [exact A|].
    unfold job_stage. rewrite B. reflexivity.
  - destruct (classic_tick_5xx i s Hp Hr) as (_ & _ & Hif).
    destruct (3 <=? S (pollErrorCount s))%nat eqn:E;
      [|apply Nat.leb_gt in E; lia].
    destruct Hif as [A B]. split; [exact A|].
    unfold job_stage. rewrite B. reflexivity.
  - destruct (classic_tick_network i s Hp Hr) as (_ & _ & Hif).
    destruct (5 <=? S (pollErrorCount s))%nat eqn:E;
      [apply Nat.leb_le in E; lia|].
    apply Hif.
Qed.

(** One network error, then one 404: the job is reported lost at the first
    404 it ever got. *)
Lemma classic_last_failure_decides_witness :
  let ne := answer NetworkError in
  let nf := answer (Http 404 None) in
  poller (run [ne] uploadJob) = Some Classic /\
  pollErrorCount (run [ne] uploadJob) = 1%nat /\
  poller (run [ne; nf] uploadJob) = None /\
  job_stage (run [ne; nf] uploadJob) = Some "Job Lost".
Proof.
  intros ne nf.
  destruct (classic_last_failure_decides (run [ne] uploadJob) nf eq_refl)
    as (A & _ & _).
  destruct (classic_last_failure_decides uploadJob ne eq_refl) as (_ & _ & B).
  destruct A as [C D]; [simpl; lia|reflexivity|].
  split; [apply B; [simpl; lia|reflexivity]|].
  split; [reflexivity|]. split; [exact C|exact D].
Defined.

(** ** The saved record over the life of a job *)

Lemma react_commit_unchanged (a b : App) :
  dep_id a = dep_id b -> dep_status a = dep_status b -> react_commit a b = b.
Proof.
  intros Hi Hs. unfold react_commit.
  rewrite Hi, Hs, !opt_str_eqb_refl. reflexivity.
Qed.

Lemma react_commit_stored_cases (a b : App) :
  storedJob (react_commit a b) = storedJob b \/
  (dep_status b = Some "processing" /\
   storedJob (react_commit a b) = Some (SavedJob (dep_id b) (Some (now b)))).
Proof.
  unfold react_commit.
  destruct (opt_str_eqb (dep_id a) (dep_id b)
            && opt_str_eqb (dep_status a) (dep_status b)); [left; reflexivity|].
  unfold persist_effect, dep_status, dep_id.
  destruct (currentJob b) as [j|]; [|left; reflexivity].
  destruct (truthy (id j)) eqn:Hid; simpl; [|left; reflexivity].
  destruct (is_str (status j) "processing") eqn:Hst; [|left; reflexivity].
  apply is_str_true in Hst.
  destruct (id j) as [jid|]; [|discriminate]. right. split; [exact Hst|reflexivity].
Qed.

Lemma callback_stored (p : Path) (i : TickInput) (s : App) :
  storedJob (callback p i s)
  = match p with
    | Smart => if stops_loop Smart i then None else storedJob s
    | _ => storedJob s
    end.
Proof.
  destruct s as [cj ph sr jr st po pj nf pe nw tr].
  destruct i as [r c rs].
  unfold stops_loop, delivered, stop_status.
  destruct p; simpl; unfold smart_callback, render_callback, classic_callback,
    classic_catch; simpl.
  - destruct r as [|code body]; [reflexivity|].
    destruct (code =? 404).
    + destruct nf as [|[|[|nf]]]; reflexivity.
    + destruct body as [d|]; [|reflexivity].
      destruct (is_str (d_status d) "processing") eqn:E1.
      * apply is_str_true in E1. rewrite E1. simpl.
        destruct c; [|reflexivity].
        destruct rs as [|[sc [[|cl cls]|]]]; reflexivity.
      * destruct (is_str (d_status d) "completed"); simpl.
        { destruct rs as [|[sc [[|cl cls]|]]]; reflexivity. }
        destruct (is_str (d_status d) "failed"); reflexivity.
  - destruct r as [|code [d|]]; try reflexivity.
    destruct (is_str (d_status d) "completed").
    + destruct rs as [|[sc [[|cl cls]|]]]; reflexivity.
    + destruct (is_str (d_status d) "failed"); reflexivity.
  - destruct r as [|code body].
    + destruct pe as [|[|[|[|[|pe]]]]]; reflexivity.
    + destruct (is_server_error code).
      * destruct pe as [|[|[|pe]]]; reflexivity.
      * destruct (code =? 404).
        { destruct pe as [|[|pe]]; reflexivity. }
        destruct body as [d|]; [|reflexivity].
        destruct (is_str (d_status d) "completed").
        { destruct rs; reflexivity. }
        destruct (is_str (d_status d) "failed" || is_str (d_status d) "cancelled");
          reflexivity.
Qed.

Lemma pageLoad_empty (t : Z) :
  pageLoad None t = mkApp None PInput [] None None None "" 0 0 t [].
Proof. reflexivity. Qed.

Lemma pageLoad_saved (sid : option string) (t0 t : Z) :
  t - t0 < 30 * 60 * 1000 ->
  poller (pageLoad (Some (SavedJob sid (Some t0))) t) = Some Smart /\
  dep_id (pageLoad (Some (SavedJob sid (Some t0))) t) = sid /\
  dep_status (pageLoad (Some (SavedJob sid (Some t0))) t) = Some "resuming".
Proof.
  intros H. unfold pageLoad, resume_effect. simpl.
  change resume_window_ms with (30 * 60 * 1000).
  apply Z.ltb_lt in H. rewrite H. simpl. repeat split.
Qed.

Lemma pageLoad_saved_loop (sid : option string) (t0 t : Z) :
  t - t0 < 30 * 60 * 1000 ->
  pollJobId (pageLoad (Some (SavedJob sid (Some t0))) t) = url_text sid /\
  notFoundCount (pageLoad (Some (SavedJob sid (Some t0))) t) = 0%nat.
Proof.
  intros H. unfold pageLoad, resume_effect. simpl.
  change resume_window_ms with (30 * 60 * 1000).
  apply Z.ltb_lt in H. rewrite H. simpl. split; reflexivity.
Qed.




Lemma smart_tick_404_stored (i : TickInput) (s : App) :
  poller s = Some Smart -> is_not_found (resp i) = true ->
  storedJob (tick i s) = storedJob s.
Proof.
  intros Hp Hr. unfold tick. rewrite Hp.
  set (s1 := advance (interval_ms Smart) s).
  pose proof (callback_stored Smart i s1) as Hc.
  pose proof (callback_job Smart i s1) as Hj.
  unfold stops_loop in Hc.
  destruct (resp i) as [|code body] eqn:Er; simpl in Hr; [discriminate|].
  unfold delivered in Hc, Hj. rewrite Hr in Hc, Hj.
  destruct Hj as [Hj|(_ & Hj & _)].
  - rewrite react_commit_unchanged.
    + exact Hc.
    + unfold dep_id. rewrite Hj. reflexivity.
    + unfold dep_status. rewrite Hj. reflexivity.
  - destruct (react_commit_stored_cases s1 (callback Smart i s1)) as [E|[E _]].
    + rewrite E. exact Hc.
    + rewrite Hj in E. discriminate.
Qed.

(** X6.  When [startSmartPolling] gives up on a lost job the saved record
    stays where it is: the 404 branch does not remove it.  A reload of the
    page within 30 minutes of the time in the record therefore starts
    [startSmartPolling] again, with a zero 404 counter, on the job id of
    that record, the job that was just reported lost, and shows that id. *)
Theorem smart_lost_job_is_resumed_on_reload (s : App) (inputs : list TickInput)
    (sid : option string) (t0 t : Z) :
  poller s = Some Smart ->
  all_resp is_not_found inputs ->
  storedJob s = Some (SavedJob sid (Some t0)) ->
  t - t0 < 30 * 60 * 1000 ->
  storedJob (run inputs s) = Some (SavedJob sid (Some t0)) /\
  poller (pageLoad (storedJob (run inputs s)) t) = Some Smart /\
  pollJobId (pageLoad (storedJob (run inputs s)) t) = url_text sid /\
  notFoundCount (pageLoad (storedJob (run inputs s)) t) = 0%nat /\
  dep_id (pageLoad (storedJob (run inputs s)) t) = sid.
Proof.
  intros Hp Hall Hst Ht.
  assert (Hkeep : storedJob (run inputs s) = storedJob s).
  { clear Hst. revert s Hp. induction inputs as [|i rest IH]; intros s Hp;
      [reflexivity|].
    inversion Hall as [|? ? Hi Hrest]; subst. simpl.
    pose proof (smart_tick_404_stored i s Hp Hi) as E.
    destruct (tick_poller Smart i s Hp) as [Hgo|Hstop].
    - rewrite (IH Hrest _ Hgo). exact E.
    - rewrite run_idle by assumption. exact E. }
  rewrite Hkeep, Hst. split; [reflexivity|].
  destruct (pageLoad_saved sid t0 t Ht) as (A & B & _).
  destruct (pageLoad_saved_loop sid t0 t Ht) as (C & D).
  repeat split; assumption.
Qed.

(** The job is reported lost after three 404 answers; a reload ten minutes
    after it was saved polls it again. *)
Lemma smart_lost_job_is_resumed_on_reload_witness :
  let nf := answer (Http 404 None) in
  storedJob smartJob = Some (SavedJob (Some "job-1") (Some 0)) /\
  poller (run [nf; nf; nf] smartJob) = None /\
  job_error (run [nf; nf; nf] smartJob) = Some job_lost_smart /\
  pollJobId (run [nf; nf; nf] smartJob) = "job-1" /\
  poller (pageLoad (storedJob (run [nf; nf; nf] smartJob)) (10 * 60 * 1000))
    = Some Smart /\
  pollJobId (pageLoad (storedJob (run [nf; nf; nf] smartJob)) (10 * 60 * 1000))
    = "job-1" /\
  dep_id (pageLoad (storedJob (run [nf; nf; nf] smartJob)) (10 * 60 * 1000))
    = Some "job-1".
Proof.
  intros nf.
  assert (Hall : all_resp is_not_found [nf; nf; nf]) by (repeat constructor).
  destruct (smart_lost_job_is_resumed_on_reload smartJob [nf; nf; nf]
              (Some "job-1") 0 (10 * 60 * 1000) eq_refl Hall eq_refl)
    as (_ & A & B & _ & C); [reflexivity|].
  split; [reflexivity|]. split; [reflexivity|]. split; [reflexivity|].
  split; [reflexivity|]. split; [exact A|]. split; [exact B|exact C].
Defined.

Lemma tick_keeps_saved (p : Path) (i : TickInput) (s : App) :
  p <> Smart -> poller s = Some p ->
  is_saved (storedJob s) = true -> is_saved (storedJob (tick i s)) = true.
Proof.
  intros Hns Hp Hsv. unfold tick. rewrite Hp.
  set (s1 := advance (interval_ms p) s).
  pose proof (callback_stored p i s1) as Hc.
  assert (Hc' : storedJob (callback p i s1) = storedJob s)
    by (destruct p; [congruence|exact Hc|exact Hc]).
  destruct (react_commit_stored_cases s1 (callback p i s1)) as [E|[_ E]];
    rewrite E; [rewrite Hc'; exact Hsv|reflexivity].
Qed.

(** X7.  Neither [startPolling] nor [startRenderPolling] ever removes the
    saved record, and the record is written for every job whose status is
    processing, uploads included.  So whatever such a loop reads, completed
    included, a record is still there after it, and a reload of the page
    within 30 minutes of the time in that record starts [startSmartPolling]
    on it. *)
Theorem upload_job_record_outlives_the_job (p : Path) (inputs : list TickInput) :
  forall s, p <> Smart -> poller s = Some p ->
  is_saved (storedJob s) = true ->
  exists sid t0,
    storedJob (run inputs s) = Some (SavedJob sid (Some t0)) /\
    forall t, t - t0 < 30 * 60 * 1000 ->
      poller (pageLoad (storedJob (run inputs s)) t) = Some Smart.
Proof.
  assert (Hsaved : forall v, is_saved v = true ->
            exists sid t0, v = Some (SavedJob sid (Some t0)) /\
              forall t, t - t0 < 30 * 60 * 1000 ->
                poller (pageLoad v t) = Some Smart).
  { intros [[| |sid [t0|]]|] H; try discriminate.
    exists sid, t0. split; [reflexivity|].
    intros t Ht. apply (pageLoad_saved sid t0 t Ht). }
  induction inputs as [|i rest IH]; intros s Hns Hp Hsv; simpl.
  - apply Hsaved, Hsv.
  - pose proof (tick_keeps_saved p i s Hns Hp Hsv) as Hsv'.
    destruct (tick_poller p i s Hp) as [Hgo|Hstop].
    + apply IH; assumption.
    + rewrite run_idle by assumption. apply Hsaved, Hsv'.
Qed.

(** An uploaded job that completes at its second firing: the record written
    when it was submitted is still there, and a reload one minute later
    starts [startSmartPolling] on the finished job. *)
Lemma upload_job_record_outlives_the_job_witness :
  let going := answer (Http 200 (Some (body_of "processing" (1 # 2)))) in
  let done := answer (Http 200 (Some (body_of "completed" 1))) in
  is_saved (storedJob uploadJob) = true /\
  poller (run [going; done] uploadJob) = None /\
  dep_status (run [going; done] uploadJob) = Some "completed" /\
  storedJob (run [going; done] uploadJob) = Some (SavedJob (Some "job-1") (Some 0)) /\
  poller (pageLoad (storedJob (run [going; done] uploadJob)) 60000) = Some Smart.
Proof.
  intros going done.
  destruct (upload_job_record_outlives_the_job Classic [going; done] uploadJob)
    as (sid & t0 & A & B); [discriminate|reflexivity|reflexivity|].
  split; [reflexivity|]. split; [reflexivity|]. split; [reflexivity|].
  split; [reflexivity|].
  assert (E : t0 = 0) by (vm_compute in A; congruence).
  apply B. rewrite E. reflexivity.
Defined.

(** ** Submitting, rendering, cancelling *)

(** X8.  Both submissions start polling exactly when the answer carries a
    non-empty job id.  With one, the job is shown as processing at progress
    0 and its loop starts with a zero error counter ([startSmartPolling]
    for a URL, [startPolling] for an upload); for a page that had no job the
    record is saved at once.  Without one (request failed, no id, empty
    id) the job, the live interval and the saved record are left as they
    were and exactly one alert is shown. *)
Theorem submission_starts_polling_iff_job_id (r : SubmitResponse) (s : App) :
  (forall j, started_job r = Some j ->
     poller (handleYoutubeSubmit r s) = Some Smart /\
     pollJobId (handleYoutubeSubmit r s) = j /\
     notFoundCount (handleYoutubeSubmit r s) = 0%nat /\
     dep_status (handleYoutubeSubmit r s) = Some "processing" /\
     job_progress (handleYoutubeSubmit r s) = Some 0%Q /\
     poller (handleUpload r s) = Some Classic /\
     pollJobId (handleUpload r s) = j /\
     pollErrorCount (handleUpload r s) = 0%nat /\
     dep_status (handleUpload r s) = Some "processing" /\
     (currentJob s = None ->
        storedJob (handleYoutubeSubmit r s) = Some (SavedJob (Some j) (Some (now s))) /\
        storedJob (handleUpload r s) = Some (SavedJob (Some j) (Some (now s))))) /\
  (started_job r = None ->
     poller (handleYoutubeSubmit r s) = poller s /\
     currentJob (handleYoutubeSubmit r s) = currentJob s /\
     storedJob (handleYoutubeSubmit r s) = storedJob s /\
     clipperPhase (handleYoutubeSubmit r s) = PInput /\
     count_events is_alert (added s (handleYoutubeSubmit r s)) = 1%nat /\
     poller (handleUpload r s) = poller s /\
     currentJob (handleUpload r s) = currentJob s /\
     storedJob (handleUpload r s) = storedJob s /\
     count_events is_alert (added s (handleUpload r s)) = 1%nat).
Proof.
  destruct s as [cj ph sr jr st po pj nf pe nw tr].
  unfold started_job, handleYoutubeSubmit, handleUpload, committed.
  split.
  - intros j Hj. destruct r as [m|[x|] c det]; try discriminate.
    destruct (String.eqb_spec x "") as [->|Hne]; [discriminate|].
    inversion Hj; subst x.
    assert (Ht : truthy (Some j) = true).
    { simpl. destruct (String.eqb_spec j ""); [contradiction|reflexivity]. }
    rewrite Ht.
    match goal with
    | |- context [react_commit ?a ?b] =>
      destruct (react_commit_fields a b) as (E1 & _ & E2 & E3 & E4 & E5 & _)
    end.
    match goal with
    | |- context [poller (react_commit ?a (startPolling ?x ?y))] =>
      destruct (react_commit_fields a (startPolling x y))
        as (F1 & _ & F2 & F3 & F4 & F5 & _)
    end.
    unfold dep_status, job_progress.
    rewrite E1, E2, E3, E4, F1, F2, F3, F5. simpl.
    repeat split.
    + unfold react_commit, persist_effect, dep_id, dep_status. simpl in *.
      subst cj. simpl. rewrite Ht. reflexivity.
    + unfold react_commit, persist_effect, dep_id, dep_status. simpl in *.
      subst cj. simpl. rewrite Ht. reflexivity.
  - intros Hn.
    assert (Hcase :
      match r with
      | SubmitData (Some j) _ _ => truthy (Some j) = false
      | _ => True
      end).
    { destruct r as [m|[x|] c det]; try exact I. simpl.
      destruct (String.eqb x ""); [reflexivity|discriminate]. }
    destruct r as [m|[x|] c det]; try rewrite Hcase;
      rewrite !react_commit_unchanged by reflexivity; simpl;
      unfold added, count_events; simpl;
      rewrite !skipn_app, !Nat.sub_diag, !skipn_all; simpl; repeat split.
Qed.

(** A submission answered without a job id, then one answered with it. *)
Lemma submission_starts_polling_iff_job_id_witness :
  let refused := SubmitData None None (Some "Video too long") in
  let accepted := SubmitData (Some "job-7") (Some true) None in
  poller (handleYoutubeSubmit refused initialApp) = None /\
  currentJob (handleYoutubeSubmit refused initialApp) = None /\
  trace (handleYoutubeSubmit refused initialApp)
    = [(0, Alert "Failed to start: Video too long")] /\
  poller (handleYoutubeSubmit accepted initialApp) = Some Smart /\
  storedJob (handleUpload accepted initialApp)
    = Some (SavedJob (Some "job-7") (Some 0)).
Proof.
  intros refused accepted.
  destruct (submission_starts_polling_iff_job_id refused initialApp) as [_ A].
  destruct (A eq_refl) as (A1 & A2 & _).
  destruct (submission_starts_polling_iff_job_id accepted initialApp) as [B _].
  destruct (B "job-7" eq_refl) as (B1 & _ & _ & _ & _ & _ & _ & _ & _ & B2).
  destruct (B2 eq_refl) as [_ B3].
  split; [exact A1|]. split; [exact A2|]. split; [reflexivity|].
  split; [exact B1|exact B3].
Defined.

Lemma react_commit_not_processing (a b : App) :
  is_str (dep_status b) "processing" = false -> react_commit a b = b.
Proof.
  intros H. unfold react_commit.
  destruct (opt_str_eqb (dep_id a) (dep_id b)
            && opt_str_eqb (dep_status a) (dep_status b)); [reflexivity|].
  unfold persist_effect. unfold dep_status in H.
  destruct (currentJob b) as [j|]; [|reflexivity].
  rewrite H. destruct (truthy (id j)); reflexivity.
Qed.

Ltac added_events :=
  unfold added, count_events; simpl; rewrite <- ?app_assoc; simpl;
  rewrite ?skipn_app, ?Nat.sub_diag, ?skipn_all; simpl.

(** X9.  A render request is sent only for a non-empty selection: with
    nothing selected the handler shows one alert and changes nothing else.
    With a selection and a current job it sends exactly one request; the
    answer queued starts [startSmartPolling] with a zero 404 counter and
    the answer rendering starts [startRenderPolling] at progress 0.  Any
    other answer starts no loop and changes no job: the page is left in the
    rendering phase with whatever interval was live before. *)
Theorem render_request_guard (onPC : bool) (r : RenderResponse) (s : App) :
  (poller (handleRenderSelected onPC 0 r s) = poller s /\
   currentJob (handleRenderSelected onPC 0 r s) = currentJob s /\
   clipperPhase (handleRenderSelected onPC 0 r s) = clipperPhase s /\
   count_events is_post_render (added s (handleRenderSelected onPC 0 r s)) = 0%nat /\
   count_events is_alert (added s (handleRenderSelected onPC 0 r s)) = 1%nat) /\
  (forall k, currentJob s <> None ->
     added s (handleRenderSelected onPC (S k) r s)
       = (now s, PostRender (id_text (currentJob s)) onPC)
         :: match r with
            | RenderError m => [(now s, Alert ("Failed to start rendering: " ++ m))]
            | RenderData _ _ => []
            end) /\
  (forall k n, currentJob s <> None ->
     let q := handleRenderSelected onPC (S k) (RenderData (Some "queued") n) s in
     let g := handleRenderSelected onPC (S k) (RenderData (Some "rendering") n) s in
     poller q = Some Smart /\ notFoundCount q = 0%nat /\
     pollJobId q = id_text (currentJob s) /\ clipperPhase q = PWaiting /\
     poller g = Some Render /\ job_progress g = Some 0%Q /\
     pollJobId g = id_text (currentJob s)) /\
  (forall k st n, currentJob s <> None ->
     is_str st "queued" = false -> is_str st "rendering" = false ->
     let u := handleRenderSelected onPC (S k) (RenderData st n) s in
     poller u = poller s /\ currentJob u = currentJob s /\
     clipperPhase u = PRendering).
Proof.
  destruct s as [[j|] ph sr jr st0 po pj nf pe nw tr];
    unfold handleRenderSelected, committed.
  - split; [|split; [|split]].
    + rewrite react_commit_unchanged by reflexivity. simpl.
      added_events. repeat split.
    + intros k _. destruct r as [m|st n].
      * rewrite react_commit_unchanged by reflexivity. added_events. reflexivity.
      * simpl. destruct (is_str st "queued") eqn:Eq;
          [|destruct (is_str st "rendering") eqn:Er].
        -- rewrite react_commit_not_processing by reflexivity.
           added_events. reflexivity.
        -- rewrite react_commit_not_processing by reflexivity.
           added_events. reflexivity.
        -- rewrite react_commit_unchanged by reflexivity.
           added_events. reflexivity.
    + intros k n _. simpl.
      rewrite !react_commit_not_processing by reflexivity. simpl. repeat split.
    + intros k st n _ Hq Hr. simpl. rewrite Hq, Hr.
      rewrite react_commit_unchanged by reflexivity. simpl. repeat split.
  - split; [|split; [|split]].
    + rewrite react_commit_unchanged by reflexivity. simpl.
      added_events. repeat split.
    + intros k H. exfalso. apply H. reflexivity.
    + intros k n H. exfalso. apply H. reflexivity.
    + intros k st n H. exfalso. apply H. reflexivity.
Qed.

(** Nothing selected: one alert.  Two clips selected and an answer the
    handler does not know: one request, the rendering phase, no loop. *)
Lemma render_request_guard_witness :
  let done := run [answer (Http 200 (Some (body_of "completed" 1)))] smartJob in
  let odd := handleRenderSelected true 2 (RenderData (Some "accepted") "2") done in
  currentJob done <> None /\
  added done (handleRenderSelected true 0 (RenderData (Some "queued") "2") done)
    = [(2000, Alert "Please select at least one clip to render")] /\
  added done odd = [(2000, PostRender "job-1" true)] /\
  poller odd = None /\
  clipperPhase odd = PRendering.
Proof.
  intros done odd.
  assert (Hj : currentJob done <> None) by discriminate.
  destruct (render_request_guard true (RenderData (Some "accepted") "2") done)
    as (_ & A & _ & B).
  destruct (B 1%nat (Some "accepted") "2" Hj eq_refl eq_refl) as (B1 & _ & B2).
  split; [exact Hj|]. split; [reflexivity|].
  split; [exact (A 1%nat Hj)|]. split; [exact B1|exact B2].
Defined.

Lemma has_id_job (s : App) : has_id s = true -> exists j, currentJob s = Some j.
Proof.
  unfold has_id. destruct (currentJob s) as [j|]; [exists j; reflexivity|discriminate].
Qed.

(** X10.  Without a current job id the two cancel handlers send nothing and
    change nothing.  With one, each sends one cancel request; if the
    request fails, or, for [cancelJob], if the server does not report the
    job as cancelled, the job, the live interval and the saved record stay
    as they were.  [handleCancelJob] does not read the answer: once the
    request is answered, cancelled or not, it drops the job, clears the
    interval and the results and removes the saved record, so a reload
    resumes nothing. *)
Theorem cancel_handlers_edge_cases (s : App) :
  (has_id s = false ->
     forall r, cancelJob r s = s /\ handleCancelJob r s = s) /\
  (has_id s = true ->
     (forall r, r = CancelError \/ r = CancelData false ->
        currentJob (cancelJob r s) = currentJob s /\
        poller (cancelJob r s) = poller s /\
        storedJob (cancelJob r s) = storedJob s /\
        added s (cancelJob r s) = [(now s, PostCancel (id_text (currentJob s)))]) /\
     (currentJob (handleCancelJob CancelError s) = currentJob s /\
      poller (handleCancelJob CancelError s) = poller s /\
      storedJob (handleCancelJob CancelError s) = storedJob s) /\
     (forall c t,
        currentJob (handleCancelJob (CancelData c) s) = None /\
        poller (handleCancelJob (CancelData c) s) = None /\
        smartResults (handleCancelJob (CancelData c) s) = [] /\
        clipperPhase (handleCancelJob (CancelData c) s) = PInput /\
        storedJob (handleCancelJob (CancelData c) s) = None /\
        poller (pageLoad (storedJob (handleCancelJob (CancelData c) s)) t) = None)).
Proof.
  unfold cancelJob, handleCancelJob, committed. split.
  - intros Hid r. rewrite Hid.
    rewrite !react_commit_unchanged by reflexivity. split; reflexivity.
  - intros Hid. rewrite Hid.
    destruct s as [cj ph sr jr st po pj nf pe nw tr]. split; [|split].
    + intros r [->| ->]; rewrite react_commit_unchanged by reflexivity;
        simpl; added_events; repeat split.
    + rewrite react_commit_unchanged by reflexivity. simpl. repeat split.
    + intros c t. rewrite react_commit_not_processing by reflexivity.
      simpl. repeat split.
Qed.

(** A job that is polled and saved; the cancel request of the smart flow is
    answered with [cancelled: false]. *)
Lemma cancel_handlers_edge_cases_witness :
  has_id smartJob = true /\
  is_saved (storedJob smartJob) = true /\
  poller (cancelJob CancelError smartJob) = Some Smart /\
  currentJob (handleCancelJob (CancelData false) smartJob) = None /\
  poller (handleCancelJob (CancelData false) smartJob) = None /\
  storedJob (handleCancelJob (CancelData false) smartJob) = None /\
  cancelJob CancelError initialApp = initialApp.
Proof.
  destruct (cancel_handlers_edge_cases smartJob) as [_ A].
  destruct (A eq_refl) as (A1 & _ & A3).
  destruct (A1 CancelError (or_introl eq_refl)) as (_ & B & _).
  destruct (A3 false 0) as (C & D & _ & _ & E & _).
  destruct (cancel_handlers_edge_cases initialApp) as [F _].
  destruct (F eq_refl CancelError) as [G _].
  split; [reflexivity|]. split; [reflexivity|]. split; [exact B|].
  split; [exact C|]. split; [exact D|]. split; [exact E|exact G].
Defined.

(** ** The clips shown *)

Lemma persist_effect_results (s : App) :
  smartResults (persist_effect s) = smartResults s /\
  jobResult (persist_effect s) = jobResult s.
Proof.
  unfold persist_effect.
  destruct (currentJob s) as [j|]; [|split; reflexivity].
  destruct (truthy (id j) && is_str (status j) "processing");
    [|split; reflexivity].
  destruct (id j); split; reflexivity.
Qed.

Lemma react_commit_results (a b : App) :
  smartResults (react_commit a b) = smartResults b /\
  jobResult (react_commit a b) = jobResult b.
Proof.
  unfold react_commit.
  destruct (opt_str_eqb (dep_id a) (dep_id b)
            && opt_str_eqb (dep_status a) (dep_status b));
    [split; reflexivity|apply persist_effect_results].
Qed.

Lemma filter_ready (l : list Clip) :
  Forall (fun c => c_ready c <> Some false) (filter ready_filter l).
Proof.
  induction l as [|c l IH]; simpl; [constructor|].
  destruct (ready_filter c) eqn:E; [|exact IH].
  constructor; [|exact IH]. unfold ready_filter in E.
  destruct (c_ready c) as [[|]|]; congruence.
Qed.

Lemma smart_callback_results (i : TickInput) (s : App) :
  smartResults (smart_callback i s) = smartResults s \/
  exists l, smartResults (smart_callback i s) = filter ready_filter l.
Proof.
  destruct s as [cj ph sr jr st po pj nf pe nw tr].
  destruct i as [r c rs].
  unfold smart_callback; simpl.
  destruct r as [|code body]; [left; reflexivity|].
  destruct (code =? 404).
  - destruct nf as [|[|[|nf]]]; left; reflexivity.
  - destruct body as [d|]; [|left; reflexivity].
    destruct (is_str (d_status d) "processing").
    + destruct c; [|left; reflexivity].
      destruct rs as [|[sc [[|cl cls]|]]]; try (left; reflexivity).
      right. exists (cl :: cls). reflexivity.
    + destruct (is_str (d_status d) "completed").
      * destruct rs as [|[sc [[|cl cls]|]]]; try (left; reflexivity).
        right. exists (cl :: cls). reflexivity.
      * destruct (is_str (d_status d) "failed"); left; reflexivity.
Qed.

(** X11.  In the smart flow a clip that the server marks [ready: false] is
    never shown: a URL submission empties the list of clips, and every list
    [startSmartPolling] puts there, progressive or final, has been filtered,
    so along any run no shown clip has [ready] equal to false. *)
Theorem smart_flow_never_shows_unready_clips (inputs : list TickInput) :
  forall s, poller s = Some Smart -> shown_ready s ->
  shown_ready (run inputs s) /\
  forall r s0, shown_ready (handleYoutubeSubmit r s0).
Proof.
  assert (Hsub : forall r s0, shown_ready (handleYoutubeSubmit r s0)).
  { intros r s0. unfold shown_ready, handleYoutubeSubmit, committed.
    match goal with
    | |- context [react_commit ?a ?b] =>
      destruct (react_commit_results a b) as [E _]; rewrite E
    end.
    destruct r as [m|[x|] c det]; simpl; try constructor.
    destruct (negb (String.eqb x "")); constructor. }
  induction inputs as [|i rest IH]; intros s Hp Hr; (split; [|exact Hsub]).
  - exact Hr.
  - simpl.
    assert (Hr' : shown_ready (tick i s)).
    { unfold tick. rewrite Hp. unfold shown_ready.
      set (s1 := advance (interval_ms Smart) s).
      destruct (react_commit_results s1 (callback Smart i s1)) as [E _].
      rewrite E. simpl callback.
      destruct (smart_callback_results i s1) as [H|[l H]]; rewrite H.
      - exact Hr.
      - apply filter_ready. }
    destruct (tick_poller Smart i s Hp) as [Hgo|Hstop].
    + apply IH; assumption.
    + rewrite run_idle by assumption. exact Hr'.
Qed.

(** Three clips arrive with the final results, one of them not ready. *)
Lemma smart_flow_never_shows_unready_clips_witness :
  let clips := [mkClip 0 (Some true); mkClip 1 (Some false); mkClip 2 None] in
  let done := mkTick (Http 200 (Some (body_of "completed" 1))) false
                     (ResultsOk (mkResultData true (Some clips))) in
  shown_ready smartJob /\
  smartResults (run [done] smartJob) = [mkClip 0 (Some true); mkClip 2 None] /\
  shown_ready (run [done] smartJob).
Proof.
  intros clips done.
  assert (H0 : shown_ready smartJob) by constructor.
  destruct (smart_flow_never_shows_unready_clips [done] smartJob eq_refl H0)
    as [A _].
  split; [exact H0|]. split; [reflexivity|exact A].
Defined.

(** ** The results of a finished job *)

Lemma tick_phase (p : Path) (i : TickInput) (s : App) :
  poller s = Some p ->
  clipperPhase (tick i s) = clipperPhase (callback p i (advance (interval_ms p) s)) /\
  smartResults (tick i s) = smartResults (callback p i (advance (interval_ms p) s)).
Proof.
  intros Hp. unfold tick. rewrite Hp.
  set (s1 := advance (interval_ms p) s).
  destruct (react_commit_fields s1 (callback p i s1)) as (_ & H & _).
  destruct (react_commit_results s1 (callback p i s1)) as (H' & _).
  split; assumption.
Qed.

(** X12.  Reading the status completed ends a loop whether or not results
    arrive, and only results with at least one clip take the page to the
    done phase.  In [startSmartPolling], results that are empty or fail to
    load leave the phase and the clips as they were, without any alert.
    In [startRenderPolling], empty results show an alert and go back to the
    selection, and results that fail to load change nothing. *)
Theorem completed_without_clips_leaves_phase (p : Path) (s : App) (i : TickInput) :
  poller s = Some p ->
  p <> Classic ->
  observes p (resp i) "completed" = true ->
  poller (tick i s) = None /\
  (has_clips (results i) = true -> clipperPhase (tick i s) = PDone) /\
  (has_clips (results i) = false ->
     smartResults (tick i s) = smartResults s /\
     clipperPhase (tick i s)
       = match p with
         | Render => if is_results_error (results i) then clipperPhase s else PSelect
         | _ => clipperPhase s
         end /\
     count_events is_alert (added s (tick i s))
       = match p with
         | Render => if is_results_error (results i) then 0%nat else 1%nat
         | _ => 0%nat
         end).
Proof.
  intros Hp Hnc Hobs.
  assert (Hstop : poller (tick i s) = None).
  { pose proof (control_tick p i s Hp) as H.
    apply (f_equal k_poller) in H. simpl in H. rewrite H.
    apply completed_stops, Hobs. }
  split; [exact Hstop|].
  destruct (tick_phase p i s Hp) as [Hph Hsr]. rewrite Hph, Hsr.
  destruct (tick_trace p i s Hp) as (evs & Htr & _ & _).
  assert (Hadd : added s (tick i s)
                 = skipn (length (trace s))
                     (trace (react_commit (advance (interval_ms p) s)
                               (callback p i (advance (interval_ms p) s)))))
    by (unfold added, tick; rewrite Hp; reflexivity).
  rewrite Hadd. clear Hadd Htr evs Hph Hsr Hstop.
  assert (Hrc : react_commit (advance (interval_ms p) s)
                  (callback p i (advance (interval_ms p) s))
                = callback p i (advance (interval_ms p) s)).
  { apply react_commit_not_processing.
    pose proof (callback_job p i (advance (interval_ms p) s)) as Hj.
    unfold observes in Hobs.
    destruct (delivered p (resp i)) as [d|]; [|discriminate].
    destruct Hj as (Hj & _). rewrite Hj.
    apply is_str_true in Hobs. rewrite Hobs. reflexivity. }
  rewrite Hrc. clear Hrc.
  unfold observes, delivered in Hobs.
  destruct s as [cj ph sr jr st po pj nf pe nw tr].
  destruct i as [r c rs]. cbn [resp results] in *.
  destruct r as [|code body]; [discriminate|].
  destruct p; [| |congruence].
  - unfold callback, smart_callback. cbn [resp results coin].
    destruct (code =? 404) eqn:E404; [discriminate|].
    destruct body as [d|]; [|discriminate].
    apply is_str_true in Hobs. rewrite Hobs. simpl.
    destruct rs as [|[sc [[|cl cls]|]]]; simpl; split;
      try discriminate; try reflexivity; intros _;
      unfold count_events; simpl; rewrite <- ?app_assoc;
      rewrite ?skipn_app, ?Nat.sub_diag, ?skipn_all; simpl; repeat split.
  - destruct body as [d|]; [|discriminate].
    unfold callback, render_callback. cbn [resp results coin].
    apply is_str_true in Hobs. rewrite Hobs. simpl.
    destruct rs as [|[sc [[|cl cls]|]]]; simpl; split;
      try discriminate; try reflexivity; intros _;
      unfold count_events; simpl; rewrite <- ?app_assoc;
      rewrite ?skipn_app, ?Nat.sub_diag, ?skipn_all; simpl; repeat split.
Qed.

(** A job completed whose results hold no clip: the smart flow stops
    polling and stays in the downloading phase. *)
Lemma completed_without_clips_leaves_phase_witness :
  let going := answer (Http 200 (Some (body_of "processing" (1 # 2)))) in
  let done := mkTick (Http 200 (Some (body_of "completed" 1))) false
                     (ResultsOk (mkResultData true (Some []))) in
  let s := run [going] smartJob in
  poller s = Some Smart /\ clipperPhase s = PDownloading /\
  poller (tick done s) = None /\
  clipperPhase (tick done s) = PDownloading /\
  dep_status (tick done s) = Some "completed".
Proof.
  intros going done s.
  assert (Hns : Smart <> Classic) by discriminate.
  destruct (completed_without_clips_leaves_phase Smart s done eq_refl Hns eq_refl)
    as (A & _ & B).
  destruct (B eq_refl) as (_ & C & _).
  split; [reflexivity|]. split; [reflexivity|]. split; [exact A|].
  split; [exact C|reflexivity].
Defined.

Lemma react_commit_persists (a b : App) (j : string) :
  opt_str_eqb (dep_status a) (dep_status b) = false ->
  dep_status b = Some "processing" ->
  dep_id b = Some j -> j <> "" ->
  storedJob (react_commit a b) = Some (SavedJob (Some j) (Some (now b))).
Proof.
  intros Hd Hs Hi Hj. unfold react_commit. rewrite Hd, andb_false_r.
  unfold persist_effect. unfold dep_status in Hs. unfold dep_id in Hi.
  destruct (currentJob b) as [jb|]; [|discriminate].
  rewrite Hs, Hi. simpl.
  destruct (String.eqb_spec j ""); [contradiction|reflexivity].
Qed.

(** X13.  The time in the saved record is not the time the job started:
    when a reloaded page reads its resumed job as processing for the first
    time, the record is written again with the time of that reading.  A
    job can therefore be resumed again and again, as long as each reload
    comes within 30 minutes of the previous one. *)
Theorem resumed_job_record_is_renewed (j : string) (t0 t : Z) (i : TickInput)
    (d : JobData) :
  j <> "" ->
  t - t0 < 30 * 60 * 1000 ->
  delivered Smart (resp i) = Some d ->
  d_status d = Some "processing" ->
  let s := pageLoad (Some (SavedJob (Some j) (Some t0))) t in
  poller s = Some Smart /\
  storedJob (tick i s) = Some (SavedJob (Some j) (Some (t + 2000))) /\
  forall t', t' - (t + 2000) < 30 * 60 * 1000 ->
    poller (pageLoad (storedJob (tick i s)) t') = Some Smart.
Proof.
  intros Hj Ht Hd Hst s.
  destruct (pageLoad_saved (Some j) t0 t Ht) as (Hp & Hid & Hrs).
  fold s in Hp, Hid, Hrs.
  assert (Hnow : now s = t).
  { unfold s, pageLoad, resume_effect. simpl.
    change resume_window_ms with (30 * 60 * 1000).
    apply Z.ltb_lt in Ht. rewrite Ht. reflexivity. }
  assert (Hsto : storedJob (tick i s) = Some (SavedJob (Some j) (Some (t + 2000)))).
  { unfold tick. rewrite Hp.
    set (s1 := advance (interval_ms Smart) s).
    pose proof (callback_job Smart i s1) as Hjob. rewrite Hd in Hjob.
    destruct Hjob as (A & _ & B & _).
    destruct (callback_now Smart i s1) as (Hn & _).
    rewrite (react_commit_persists s1 (callback Smart i s1) j).
    - rewrite Hn. unfold s1. simpl. rewrite Hnow. reflexivity.
    - rewrite A, Hst. change (dep_status s1) with (dep_status s).
      rewrite Hrs. reflexivity.
    - rewrite A. exact Hst.
    - rewrite B. exact Hid.
    - exact Hj. }
  split; [exact Hp|]. split; [exact Hsto|].
  intros t' Ht'. rewrite Hsto. apply (pageLoad_saved (Some j) (t + 2000) t' Ht').
Qed.

(** A job saved at time 0 and reloaded after 29 minutes: the record is
    renewed, and a second reload 29 minutes later resumes it again, 58
    minutes after the job was saved. *)
Lemma resumed_job_record_is_renewed_witness :
  let going := answer (Http 200 (Some (body_of "processing" (1 # 2)))) in
  let first := pageLoad (Some (SavedJob (Some "job-1") (Some 0))) (29 * 60 * 1000) in
  storedJob (tick going first)
    = Some (SavedJob (Some "job-1") (Some (29 * 60 * 1000 + 2000))) /\
  poller (pageLoad (storedJob (tick going first)) (58 * 60 * 1000)) = Some Smart.
Proof.
  intros going first.
  assert (Hj : "job-1" <> "") by discriminate.
  destruct (resumed_job_record_is_renewed "job-1" 0 (29 * 60 * 1000) going
              (body_of "processing" (1 # 2)) Hj eq_refl eq_refl eq_refl)
    as (_ & A & B).
  split; [exact A|]. apply B. reflexivity.
Defined.

(** ** The selection of candidates *)

Lemma set_has_In (x : Z) (l : IndexSet) : set_has x l = true <-> In x l.
Proof.
  unfold set_has. rewrite existsb_exists. split.
  - intros (y & Hy & E). apply Z.eqb_eq in E. subst. exact Hy.
  - intros H. exists x. split; [exact H|apply Z.eqb_refl].
Qed.

Lemma set_has_delete (x y : Z) (l : IndexSet) :
  set_has y (set_delete x l) = negb (y =? x) && set_has y l.
Proof.
  induction l as [|z l IH]; simpl; [rewrite andb_false_r; reflexivity|].
  destruct (Z.eqb_spec z x) as [->|Hzx]; simpl.
  - rewrite IH. destruct (Z.eqb_spec y x); simpl; reflexivity.
  - rewrite IH. destruct (Z.eqb_spec y z) as [->|Hyz]; simpl.
    + destruct (Z.eqb_spec z x); [contradiction|reflexivity].
    + reflexivity.
Qed.

Lemma set_has_snoc (x y : Z) (l : IndexSet) :
  set_has y (l ++ [x])%list = set_has y l || (y =? x).
Proof.
  unfold set_has. rewrite existsb_app. simpl. rewrite orb_false_r. reflexivity.
Qed.

Lemma set_delete_absent (x : Z) (l : IndexSet) :
  set_has x l = false -> set_delete x l = l.
Proof.
  induction l as [|z l IH]; simpl; [reflexivity|].
  intros H. apply orb_false_iff in H. destruct H as [Hz Hl].
  rewrite Z.eqb_sym in Hz. rewrite Hz. simpl. rewrite IH by assumption. reflexivity.
Qed.

Lemma set_delete_length (x : Z) (l : IndexSet) :
  NoDup l -> set_has x l = true -> S (length (set_delete x l)) = length l.
Proof.
  induction 1 as [|z l Hz Hnd IH]; simpl; [discriminate|].
  destruct (Z.eqb_spec x z) as [->|Hxz]; simpl.
  - intros _. rewrite Z.eqb_refl. simpl. rewrite set_delete_absent; [reflexivity|].
    destruct (set_has z l) eqn:E; [|reflexivity].
    apply set_has_In in E. contradiction.
  - intros H. destruct (Z.eqb_spec z x); [congruence|]. simpl.
    rewrite IH by assumption. reflexivity.
Qed.

(** X14.  Toggling an index flips that index and no other: afterwards it
    is selected exactly when it was not, every other index is as before,
    the set still holds each index once, and its size went up or down by
    one.  Toggling twice gives back the same members; an index that was
    selected ends up last in the order in which the selection is sent. *)
Theorem toggle_selection_flips_one_index (x : Z) (l : IndexSet) :
  NoDup l ->
  NoDup (toggleCandidateSelection x l) /\
  (forall y, set_has y (toggleCandidateSelection x l)
             = if y =? x then negb (set_has x l) else set_has y l) /\
  length (toggleCandidateSelection x l)
    = (if set_has x l then pred (length l) else S (length l)) /\
  (forall y, set_has y (toggleCandidateSelection x (toggleCandidateSelection x l))
             = set_has y l) /\
  toggleCandidateSelection x (toggleCandidateSelection x l)
    = (if set_has x l then set_delete x l ++ [x] else l)%list.
Proof.
  intros Hnd. unfold toggleCandidateSelection. cbv zeta.
  destruct (set_has x l) eqn:Hx.
  - assert (Hgone : set_has x (set_delete x l) = false)
      by (rewrite set_has_delete, Z.eqb_refl; reflexivity).
    rewrite Hgone. unfold set_add. rewrite Hgone.
    split; [apply NoDup_filter, Hnd|]. split; [|split; [|split]].
    + intros y. rewrite set_has_delete.
      destruct (Z.eqb_spec y x) as [->|]; simpl; reflexivity.
    + rewrite <- (set_delete_length x l Hnd Hx). reflexivity.
    + intros y. rewrite set_has_snoc, set_has_delete.
      destruct (Z.eqb_spec y x) as [->|]; simpl;
        [symmetry; exact Hx | apply orb_false_r].
    + reflexivity.
  - unfold set_add. rewrite Hx.
    assert (Hin : set_has x (l ++ [x])%list = true)
      by (rewrite set_has_snoc, Z.eqb_refl; apply orb_true_r).
    rewrite Hin.
    assert (Hback : set_delete x (l ++ [x])%list = l).
    { unfold set_delete. rewrite filter_app. simpl. rewrite Z.eqb_refl. simpl.
      rewrite app_nil_r. apply set_delete_absent, Hx. }
    split; [|split; [|split; [|split]]].
    + apply NoDup_app; [exact Hnd|repeat constructor; intros []|].
      intros a Ha [<-|[]]. apply set_has_In in Ha. congruence.
    + intros y. rewrite set_has_snoc.
      destruct (Z.eqb_spec y x) as [->|]; simpl;
        [apply orb_true_r | apply orb_false_r].
    + rewrite length_app. simpl. lia.
    + intros y. rewrite Hback. reflexivity.
    + exact Hback.
Qed.

(** The selection 3, 1, 4 with 1 clicked twice. *)
Lemma toggle_selection_flips_one_index_witness :
  NoDup [3; 1; 4] /\
  toggleCandidateSelection 1 [3; 1; 4] = [3; 4] /\
  toggleCandidateSelection 1 (toggleCandidateSelection 1 [3; 1; 4]) = [3; 4; 1] /\
  forall y, set_has y (toggleCandidateSelection 1 (toggleCandidateSelection 1 [3; 1; 4]))
            = set_has y [3; 1; 4].
Proof.
  assert (Hnd : NoDup [3; 1; 4]).
  { repeat constructor; simpl; intros H;
      repeat (destruct H as [H|H]; [discriminate|]); exact H. }
  destruct (toggle_selection_flips_one_index 1 [3; 1; 4] Hnd)
    as (_ & _ & _ & A & B).
  split; [exact Hnd|]. split; [reflexivity|]. split; [exact B|exact A].
Defined.

(** ** The saved settings *)





(** ** [formatTime] *)






(** ** The result of an uploaded job *)

Lemma classic_callback_result (i : TickInput) (s : App) :
  jobResult (classic_callback i s)
  = if observes Classic (resp i) "completed" then
      match results i with
      | ResultsOk data => Some data
      | ResultsError => jobResult s
      end
    else jobResult s.
Proof.
  destruct s as [cj ph sr jr st po pj nf pe nw tr].
  destruct i as [r c rs].
  unfold observes, delivered, classic_callback, classic_catch; simpl.
  destruct r as [|code body].
  - destruct pe as [|[|[|[|[|pe]]]]]; reflexivity.
  - destruct (is_server_error code).
    + destruct pe as [|[|[|pe]]]; reflexivity.
    + destruct (code =? 404).
      * destruct pe as [|[|pe]]; reflexivity.
      * destruct body as [d|]; [|reflexivity].
        destruct (is_str (d_status d) "completed").
        { destruct rs; reflexivity. }
        destruct (is_str (d_status d) "failed" || is_str (d_status d) "cancelled");
          reflexivity.
Qed.

Lemma classic_tick_result (i : TickInput) (s : App) :
  poller s = Some Classic ->
  jobResult (tick i s)
  = if observes Classic (resp i) "completed" then
      match results i with
      | ResultsOk data => Some data
      | ResultsError => jobResult s
      end
    else jobResult s.
Proof.
  intros Hp. unfold tick. rewrite Hp.
  set (s1 := advance (interval_ms Classic) s).
  destruct (react_commit_results s1 (callback Classic i s1)) as [_ E].
  rewrite E. exact (classic_callback_result i s1).
Qed.

(** X17.  An upload clears the result shown, and [startPolling] shows one
    only from the firing that reads the status completed: as long as no
    result is shown at the start of a run, a result shown after it is the
    answer to the result request of a firing that read completed, and the
    loop has stopped with the job shown as completed.  A job that fails, is
    cancelled or is given up on never gets a result. *)
Theorem upload_result_shown_only_when_completed (inputs : list TickInput) :
  forall s, poller s = Some Classic -> jobResult s = None ->
  match jobResult (run inputs s) with
  | Some data =>
    poller (run inputs s) = None /\
    dep_status (run inputs s) = Some "completed" /\
    Exists (fun i => observes Classic (resp i) "completed" = true
                     /\ results i = ResultsOk data) inputs
  | None => True
  end /\
  forall r s0, jobResult (handleUpload r s0) = None.
Proof.
  assert (Hup : forall r s0, jobResult (handleUpload r s0) = None).
  { intros r s0. unfold handleUpload, committed.
    match goal with
    | |- context [react_commit ?a ?b] =>
      destruct (react_commit_results a b) as [_ E]; rewrite E
    end.
    destruct r as [m|[x|] c det]; simpl; try reflexivity.
    destruct (String.eqb x ""); reflexivity. }
  induction inputs as [|i rest IH]; intros s Hp Hr; (split; [|exact Hup]).
  - simpl. rewrite Hr. exact I.
  - simpl. pose proof (classic_tick_result i s Hp) as Ht.
    destruct (observes Classic (resp i) "completed") eqn:Hobs.
    + assert (Hstop : poller (tick i s) = None).
      { apply (tick_stops_loop Classic); [exact Hp|].
        unfold stops_loop. unfold observes in Hobs.
        destruct (delivered Classic (resp i)) as [d|]; [|discriminate].
        apply is_str_true in Hobs. rewrite Hobs. reflexivity. }
      rewrite run_idle by assumption. rewrite Ht.
      destruct (results i) as [|data] eqn:Hres; [rewrite Hr; exact I|].
      split; [exact Hstop|]. split.
      * pose proof (tick_job Classic i s Hp) as Hj. unfold observes in Hobs.
        destruct (delivered Classic (resp i)) as [d|]; [|discriminate].
        destruct Hj as (Hj & _). rewrite Hj. apply is_str_true, Hobs.
      * constructor. split; assumption.
    + rewrite Hr in Ht.
      destruct (tick_poller Classic i s Hp) as [Hgo|Hstop].
      * destruct (IH (tick i s) Hgo Ht) as [IH1 _].
        destruct (jobResult (run rest (tick i s))) as [data|]; [|exact I].
        destruct IH1 as (A & B & C). repeat split; try assumption.
        apply Exists_cons_tl, C.
      * rewrite run_idle by assumption. rewrite Ht. exact I.
Qed.

(** An uploaded job that fails, and one that completes. *)
Lemma upload_result_shown_only_when_completed_witness :
  let going := answer (Http 200 (Some (body_of "processing" (1 # 2)))) in
  let failed := mkTick (Http 200 (Some (body_of "failed" (1 # 2)))) false
                       (ResultsOk (mkResultData false None)) in
  let done := mkTick (Http 200 (Some (body_of "completed" 1))) false
                     (ResultsOk (mkResultData true None)) in
  jobResult uploadJob = None /\
  jobResult (run [going; failed] uploadJob) = None /\
  jobResult (run [going; done] uploadJob) = Some (mkResultData true None) /\
  dep_status (run [going; done] uploadJob) = Some "completed".
Proof.
  intros going failed done.
  destruct (upload_result_shown_only_when_completed [going; done] uploadJob
              eq_refl eq_refl) as [A _].
  change (jobResult (run [going; done] uploadJob))
    with (Some (mkResultData true None)) in A.
  destruct A as (_ & B & _).
  split; [reflexivity|]. split; [reflexivity|]. split; [reflexivity|exact B].
Defined.
